(** * The plugin-facing Config wrapper (packages/core/core/src/public/Config.js)

    A shallow embedding of the [PublicConfig] class: the wrapper that
    transform plugins receive in order to resolve configuration files and to
    record, on the internal [Config] object, what the resolution depended on.

    The internal [Config] is a mutable object shared between the wrapper and
    the request that owns it; here it is a record threaded through a small
    state-and-exception monad.  The asynchronous methods are modelled as run
    to completion (one call at a time), and every call of [loadConfig] is
    logged so that statements such as "without searching again" can be
    expressed. *)

From Stdlib Require Import PrimFloat.
From stdpp Require Import base option list strings gmap.

Set Warnings "-register-all".

(** ** JavaScript values *)

(** What a parsed configuration file, a package descriptor or a plugin result
    can be.  Numbers are IEEE-754 binary64, as in the language. *)
Inductive JSValue : Type :=
| JUndefined
| JNull
| JBool (b : bool)
| JNumber (x : float)
| JString (s : string)
| JArray (items : list JSValue)
| JObject (props : list (string * JSValue))
| JFunction (name : string).

(** ToBoolean: [undefined], [null], [false], [0], [-0], [NaN] and [""] are
    falsy, everything else (objects, arrays and functions included) is
    truthy. *)
Definition truthy (v : JSValue) : bool :=
  match v with
  | JUndefined | JNull => false
  | JBool b => b
  | JNumber x => negb (PrimFloat.is_zero x || PrimFloat.is_nan x)
  | JString s => negb (String.eqb s "")
  | JArray _ | JObject _ | JFunction _ => true
  end.

(** Own, string-keyed properties of a plain object. *)
Fixpoint assoc {V : Type} (k : string) (l : list (string * V)) : option V :=
  match l with
  | [] => None
  | (k', v) :: rest => if String.eqb k' k then Some v else assoc k rest
  end.

Definition getOwnProperty (v : JSValue) (k : string) : option JSValue :=
  match v with
  | JObject props => assoc k props
  | _ => None
  end.

(** [s.endsWith(suffix)] *)
Definition endsWith (s suffix : string) : bool :=
  let n := String.length s in
  let m := String.length suffix in
  if (m <=? n)%nat then String.eqb (String.substring (n - m) m s) suffix else false.

(** ** Collections of the internal Config *)

Definition FilePath := string.
Definition Glob := string.
Definition PackageName := string.

(** A JavaScript [Set] of strings: no duplicates, iteration in insertion
    order.  [Set.prototype.add] leaves the set alone when the element is
    already there and appends it otherwise. *)
Definition JSSet := list string.

Definition Set_add (x : string) (s : JSSet) : JSSet :=
  if decide (x ∈ s) then s else s ++ [x].

Definition Set_has (x : string) (s : JSSet) : bool := bool_decide (x ∈ s).

(** A JavaScript [Map] from strings: [Map.prototype.set] overwrites the value
    of a key that is present, keeping its position, and appends a new
    entry otherwise. *)
Definition JSMap (V : Type) := list (string * V).

Fixpoint Map_set {V : Type} (k : string) (v : V) (m : JSMap V) : JSMap V :=
  match m with
  | [] => [(k, v)]
  | (k', v') :: rest =>
      if String.eqb k' k then (k, v) :: rest else (k', v') :: Map_set k v rest
  end.

Definition Map_get {V : Type} (k : string) (m : JSMap V) : option V := assoc k m.

(** ** The internal Config object ([Config] of ../types)

    Modelled from the spec: the type declaration is not part of the sources
    at hand; the fields are those the wrapper reads and writes, with the
    kinds the spec gives for the Config Result (a set of included files, a
    mapping from package names to optional version constraints, three
    boolean flags). *)
Record Config : Type := mkConfig {
  searchPath : FilePath;
  env : JSValue;
  isSource : bool;
  resolvedPath : option FilePath;
  result : JSValue;
  resultHash : option string;
  includedFiles : JSSet;
  devDeps : JSMap (option string);
  pkg : JSValue;
  watchGlob : option Glob;
  shouldRehydrate_flag : bool;
  shouldReload_flag : bool;
  shouldInvalidateOnStartup_flag : bool
}.

(** Field assignments [config.f = x]. *)
Definition with_resolvedPath (x : option FilePath) (c : Config) : Config :=
  mkConfig (searchPath c) (env c) (isSource c) x (result c) (resultHash c)
    (includedFiles c) (devDeps c) (pkg c) (watchGlob c)
    (shouldRehydrate_flag c) (shouldReload_flag c) (shouldInvalidateOnStartup_flag c).

Definition with_result (x : JSValue) (c : Config) : Config :=
  mkConfig (searchPath c) (env c) (isSource c) (resolvedPath c) x (resultHash c)
    (includedFiles c) (devDeps c) (pkg c) (watchGlob c)
    (shouldRehydrate_flag c) (shouldReload_flag c) (shouldInvalidateOnStartup_flag c).

Definition with_resultHash (x : option string) (c : Config) : Config :=
  mkConfig (searchPath c) (env c) (isSource c) (resolvedPath c) (result c) x
    (includedFiles c) (devDeps c) (pkg c) (watchGlob c)
    (shouldRehydrate_flag c) (shouldReload_flag c) (shouldInvalidateOnStartup_flag c).

Definition with_includedFiles (x : JSSet) (c : Config) : Config :=
  mkConfig (searchPath c) (env c) (isSource c) (resolvedPath c) (result c) (resultHash c)
    x (devDeps c) (pkg c) (watchGlob c)
    (shouldRehydrate_flag c) (shouldReload_flag c) (shouldInvalidateOnStartup_flag c).

Definition with_devDeps (x : JSMap (option string)) (c : Config) : Config :=
  mkConfig (searchPath c) (env c) (isSource c) (resolvedPath c) (result c) (resultHash c)
    (includedFiles c) x (pkg c) (watchGlob c)
    (shouldRehydrate_flag c) (shouldReload_flag c) (shouldInvalidateOnStartup_flag c).

Definition with_pkg (x : JSValue) (c : Config) : Config :=
  mkConfig (searchPath c) (env c) (isSource c) (resolvedPath c) (result c) (resultHash c)
    (includedFiles c) (devDeps c) x (watchGlob c)
    (shouldRehydrate_flag c) (shouldReload_flag c) (shouldInvalidateOnStartup_flag c).

Definition with_watchGlob (x : option Glob) (c : Config) : Config :=
  mkConfig (searchPath c) (env c) (isSource c) (resolvedPath c) (result c) (resultHash c)
    (includedFiles c) (devDeps c) (pkg c) x
    (shouldRehydrate_flag c) (shouldReload_flag c) (shouldInvalidateOnStartup_flag c).

Definition with_shouldRehydrate (x : bool) (c : Config) : Config :=
  mkConfig (searchPath c) (env c) (isSource c) (resolvedPath c) (result c) (resultHash c)
    (includedFiles c) (devDeps c) (pkg c) (watchGlob c)
    x (shouldReload_flag c) (shouldInvalidateOnStartup_flag c).

Definition with_shouldReload (x : bool) (c : Config) : Config :=
  mkConfig (searchPath c) (env c) (isSource c) (resolvedPath c) (result c) (resultHash c)
    (includedFiles c) (devDeps c) (pkg c) (watchGlob c)
    (shouldRehydrate_flag c) x (shouldInvalidateOnStartup_flag c).

Definition with_shouldInvalidateOnStartup (x : bool) (c : Config) : Config :=
  mkConfig (searchPath c) (env c) (isSource c) (resolvedPath c) (result c) (resultHash c)
    (includedFiles c) (devDeps c) (pkg c) (watchGlob c)
    (shouldRehydrate_flag c) (shouldReload_flag c) x.

(** The fields, by name, and [unchangedExcept f c c']: every field other
    than [f] has in [c'] the value it has in [c]. *)
Inductive Field : Type :=
| FSearchPath | FEnv | FIsSource | FResolvedPath | FResult | FResultHash
| FIncludedFiles | FDevDeps | FPkg | FWatchGlob
| FShouldRehydrate | FShouldReload | FShouldInvalidateOnStartup.

Definition unchangedExcept (f : Field) (c c' : Config) : Prop :=
  (f = FSearchPath ∨ searchPath c' = searchPath c) ∧
  (f = FEnv ∨ env c' = env c) ∧
  (f = FIsSource ∨ isSource c' = isSource c) ∧
  (f = FResolvedPath ∨ resolvedPath c' = resolvedPath c) ∧
  (f = FResult ∨ result c' = result c) ∧
  (f = FResultHash ∨ resultHash c' = resultHash c) ∧
  (f = FIncludedFiles ∨ includedFiles c' = includedFiles c) ∧
  (f = FDevDeps ∨ devDeps c' = devDeps c) ∧
  (f = FPkg ∨ pkg c' = pkg c) ∧
  (f = FWatchGlob ∨ watchGlob c' = watchGlob c) ∧
  (f = FShouldRehydrate ∨ shouldRehydrate_flag c' = shouldRehydrate_flag c) ∧
  (f = FShouldReload ∨ shouldReload_flag c' = shouldReload_flag c) ∧
  (f = FShouldInvalidateOnStartup ∨
   shouldInvalidateOnStartup_flag c' = shouldInvalidateOnStartup_flag c).

(** ** What [loadConfig] takes and gives back *)

(** The options argument of [getConfig] and [getConfigFrom]; an absent
    property is [None]. *)
Record ConfigOptions : Type := mkConfigOptions {
  packageKey : option string;
  parse : option bool;
  exclude : option bool
}.

(** The last argument of [loadConfig], when it is not [null]: [{parse}]. *)
Record LoadOptions : Type := mkLoadOptions { lo_parse : bool }.

Record ConfigFile : Type := mkConfigFile { filePath : FilePath }.

(** A successful search: the parsed content and the files it came from. *)
Record LoadedConfig : Type := mkLoadedConfig {
  config : JSValue;
  files : list ConfigFile
}.

(** One call of [loadConfig], as logged. *)
Record LoadCall : Type := mkLoadCall {
  call_searchPath : FilePath;
  call_filePaths : list FilePath;
  call_options : option LoadOptions
}.

(** ** Effects: the mutable Config, the log of searches, exceptions *)

Inductive Exn : Type :=
| TypeError (msg : string)
| LoadConfigError (msg : string).

Inductive Outcome (A : Type) : Type :=
| Ret (a : A)
| Throw (e : Exn).
Arguments Ret {A} a.
Arguments Throw {A} e.

Record World : Type := mkWorld {
  this_config : Config;
  loads : list LoadCall
}.

Definition Eff (A : Type) : Type := World → Outcome A * World.

#[export] Instance Eff_ret : MRet Eff := λ A a w, (Ret a, w).

#[export] Instance Eff_bind : MBind Eff := λ A B f m w,
  match m w with
  | (Ret a, w') => f a w'
  | (Throw e, w') => (Throw e, w')
  end.

Definition throw {A : Type} (e : Exn) : Eff A := λ w, (Throw e, w).

(** Read the internal Config. *)
Definition getThisConfig : Eff Config := λ w, (Ret (this_config w), w).

(** Assign to a field of the internal Config. *)
Definition updateThisConfig (f : Config → Config) : Eff unit :=
  λ w, (Ret tt, mkWorld (f (this_config w)) (loads w)).

(** The Config a computation leaves behind, and what it returns. *)
Definition outcomeOf {A : Type} (r : Outcome A * World) : Outcome A := r.1.
Definition worldOf {A : Type} (r : Outcome A * World) : World := r.2.

(** ** What the wrapper is given from outside *)

(** The input file system: the text of every file, by path. *)
Definition FileSystem := gmap FilePath string.

(** [ParcelOptions] of ../types; the wrapper only reads [inputFS]. *)
Record ParcelOptions : Type := mkParcelOptions { inputFS : FileSystem }.

(** What the [env] getter hands out: [new Environment(config.env)]. *)
Inductive PublicEnvironment : Type :=
| Environment (internal : JSValue).

(** [loadConfig] of @parcel/utils resolves to [null] when no candidate is
    found, to the parsed file when one is, and rejects when reading or
    parsing fails. *)
Definition LoadConfig : Type :=
  FileSystem → FilePath → list FilePath → option LoadOptions →
  Outcome (option LoadedConfig).

(** ** Identity of wrappers: the constructor and its memo table *)

(** Objects are known by reference. *)
Definition Ref := nat.

(** The private fields of a [PublicConfig]; [None] until assigned. *)
Record PublicConfigObject : Type := mkPublicConfigObject {
  priv_config : option Ref;
  priv_options : option Ref
}.

(** The module-level state: every wrapper object allocated so far, and
    [internalConfigToConfig], a map from options to a map from internal
    Configs to wrappers. *)
Record Heap : Type := mkHeap {
  nextRef : Ref;
  wrappers : gmap Ref PublicConfigObject;
  internalConfigToConfig : gmap Ref (gmap Ref Ref)
}.

(** Modelled from the spec: [DefaultWeakMap] of @parcel/utils is not part of
    the sources at hand.  The spec describes the table as one wrapper reused
    per (options, Config) pair, which requires that [get] on a key that is
    absent stores the default it creates (here [new WeakMap()]) before
    returning it. *)
Definition DefaultWeakMap_get (key : Ref) (m : gmap Ref (gmap Ref Ref))
  : gmap Ref Ref * gmap Ref (gmap Ref Ref) :=
  match m !! key with
  | Some inner => (inner, m)
  | None => (∅, <[key := ∅]> m)
  end.

(** [new PublicConfig(config, options)]: [this] is a fresh object; a
    constructor that returns an object makes [new] evaluate to that object
    instead of [this]. *)
Definition new_PublicConfig (config options : Ref) (h : Heap) : Ref * Heap :=
  let this := nextRef h in
  let objs := <[this := mkPublicConfigObject None None]> (wrappers h) in
  let '(inner, table) := DefaultWeakMap_get options (internalConfigToConfig h) in
  match inner !! config with
  | Some existing => (existing, mkHeap (S this) objs table)
  | None =>
      let objs' := <[this := mkPublicConfigObject (Some config) (Some options)]> objs in
      let '(inner', table') := DefaultWeakMap_get options table in
      (this, mkHeap (S this) objs' (<[options := <[config := this]> inner']> table'))
  end.

(** Any number of constructions, one after the other. *)
Fixpoint constructAll (pairs : list (Ref * Ref)) (h : Heap) : Heap :=
  match pairs with
  | [] => h
  | (config, options) :: rest => constructAll rest (new_PublicConfig config options h).2
  end.

(** The wrapper the table holds for a pair, if any. *)
Definition lookupWrapper (config options : Ref) (h : Heap) : option Ref :=
  internalConfigToConfig h !! options ≫= (λ inner, inner !! config).

(** The state in which the module is loaded: no wrapper yet, and
    [internalConfigToConfig = new DefaultWeakMap(() => new WeakMap())]. *)
Definition initialHeap : Heap := mkHeap 0 ∅ ∅.

(** Every wrapper the table holds is an allocated object whose private
    fields are the Config and the options it is filed under. *)
Definition tableConsistent (h : Heap) : Prop :=
  ∀ config options r,
    lookupWrapper config options h = Some r →
    r < nextRef h ∧
    wrappers h !! r = Some (mkPublicConfigObject (Some config) (Some options)).

(** ** The tables of the JSX options (getJSXOptions of the Babel transformer) *)

(** [PluginOptions] of @parcel/types; [getJSXOptions] only reads [mode]. *)
Record PluginOptions : Type := mkPluginOptions { mode : string }.

(** The imported [@babel/preset-react]. *)
Definition preset : JSValue := JFunction "@babel/preset-react".

Definition JSX_EXTENSIONS : JSValue :=
  JObject [(".jsx", JBool true); (".tsx", JBool true)].

Definition JSX_PRAGMA : JSValue :=
  JObject
    [("react", JObject [("pragma", JString "React.createElement");
                        ("pragmaFrag", JString "React.Fragment")]);
     ("preact", JObject [("pragma", JString "h");
                         ("pragmaFrag", JString "Fragment")]);
     ("nervjs", JObject [("pragma", JString "Nerv.createElement");
                         ("pragmaFrag", JUndefined)]);
     ("hyperapp", JObject [("pragma", JString "h");
                           ("pragmaFrag", JUndefined)])].

(** [Object.keys] of a plain object none of whose keys is an array index:
    the keys in insertion order. *)
Definition Object_keys (v : JSValue) : list string :=
  match v with
  | JObject props => props.*1
  | _ => []
  end.

(** [Array.prototype.find]: the first element on which the callback returns
    a truthy value, [undefined] ([None]) when there is none. *)
Fixpoint Array_find (callback : string → JSValue) (l : list string) : option string :=
  match l with
  | [] => None
  | x :: rest => if truthy (callback x) then Some x else Array_find callback rest
  end.

(** The object [getJSXOptions] returns when it returns a configuration:
    [{presets: [[preset, {pragma, pragmaFrag, development}]]}]. *)
Definition jsxPresets (pragma pragmaFrag : JSValue) (development : bool) : JSValue :=
  JObject
    [("presets",
      JArray [JArray [preset;
                      JObject [("pragma", pragma);
                               ("pragmaFrag", pragmaFrag);
                               ("development", JBool development)]]])].

(** ** The CSS transformer: which assets are parsed (CSSTransformer.js)

    Source text is held as the bytes of its UTF-8 encoding. *)

Module CSSTransformer.

Definition byte (c : Ascii.ascii) : nat := Ascii.nat_of_ascii c.

(** The characters of [\s], by their UTF-8 bytes: tab to carriage return
    and space; U+00A0; U+1680; U+2000 to U+200A, U+2028, U+2029, U+202F,
    U+205F; U+3000; U+FEFF. *)
Definition isSpace1 (a : Ascii.ascii) : bool :=
  ((9 <=? byte a) && (byte a <=? 13)) || (byte a =? 32).

Definition isSpace2 (a b : Ascii.ascii) : bool :=
  (byte a =? 194) && (byte b =? 160).

Definition isSpace3 (a b c : Ascii.ascii) : bool :=
  ((byte a =? 225) && (byte b =? 154) && (byte c =? 128)) ||
  ((byte a =? 226) && (byte b =? 128) &&
   (((128 <=? byte c) && (byte c <=? 138)) ||
    (byte c =? 168) || (byte c =? 169) || (byte c =? 175))) ||
  ((byte a =? 226) && (byte b =? 129) && (byte c =? 159)) ||
  ((byte a =? 227) && (byte b =? 128) && (byte c =? 128)) ||
  ((byte a =? 239) && (byte b =? 187) && (byte c =? 191)).

(** [\s*] followed by something that is not a space: what is left once
    every leading space is consumed. *)
Fixpoint skipSpaces (s : string) : string :=
  match s with
  | EmptyString => s
  | String a r1 =>
      if isSpace1 a then skipSpaces r1
      else
        match r1 with
        | EmptyString => s
        | String b r2 =>
            if isSpace2 a b then skipSpaces r2
            else
              match r2 with
              | EmptyString => s
              | String c r3 => if isSpace3 a b c then skipSpaces r3 else s
              end
        end
  end.

(** A literal at the start of [s]: what follows it, if it is there. *)
Fixpoint eat (literal s : string) : option string :=
  match literal, s with
  | EmptyString, _ => Some s
  | String a literal', String b s' =>
      if Ascii.eqb a b then eat literal' s' else None
  | String _ _, EmptyString => None
  end.

(** [a-z] *)
Definition isLower (a : Ascii.ascii) : bool :=
  (97 <=? byte a) && (byte a <=? 122).

Fixpoint afterLowers (s : string) : string :=
  match s with
  | String a r => if isLower a then afterLowers r else s
  | EmptyString => s
  end.

(** [[a-z]+:] at the start of [s]. *)
Definition schemeAhead (s : string) : bool :=
  match s with
  | String a r =>
      isLower a &&
      match afterLowers r with
      | String c _ => byte c =? 58
      | EmptyString => false
      end
  | EmptyString => false
  end.

(** The double quote. *)
Definition dquote : string := String (Ascii.ascii_of_nat 34) EmptyString.

(** [URL_RE] at the start of [s]: the letters [url], any number of spaces,
    an opening parenthesis, an optional double quote, and then not
    ([(?!...)]) lowercase letters followed by a colon.  The optional quote
    is first taken and, when the lookahead then refuses, given back. *)
Definition URL_RE_here (s : string) : bool :=
  match eat "url" s with
  | None => false
  | Some r =>
      match eat "(" (skipSpaces r) with
      | None => false
      | Some r' =>
          match eat dquote r' with
          | Some r'' => negb (schemeAhead r'') || negb (schemeAhead r')
          | None => negb (schemeAhead r')
          end
      end
  end.

(** [URL_RE.test(s)]: a match at some position. *)
Fixpoint URL_RE_test (s : string) : bool :=
  URL_RE_here s ||
  match s with
  | String _ r => URL_RE_test r
  | EmptyString => false
  end.

(** [s.includes(needle)] *)
Fixpoint includes (needle s : string) : bool :=
  match eat needle s with
  | Some _ => true
  | None =>
      match s with
      | String _ r => includes needle r
      | EmptyString => false
      end
  end.

(** [IMPORT_RE = /@import/] *)
Definition IMPORT_RE_test (s : string) : bool := includes "@import" s.

Definition canHaveDependencies (filePath : FilePath) (code : string) : bool :=
  negb (endsWith filePath ".css") || IMPORT_RE_test code || URL_RE_test code.

(** What [parse] reads of the asset: [meta.hasDependencies], [filePath],
    and what [getCode()] resolves to or rejects with. *)
Record CSSAsset : Type := mkCSSAsset {
  meta_hasDependencies : JSValue;
  asset_filePath : FilePath;
  getCode : Outcome (option string)
}.

Record PostcssAST (Program : Type) : Type := mkPostcssAST {
  ast_type : string;
  ast_version : string;
  ast_program : Program
}.
Arguments mkPostcssAST {Program} _ _ _.

(** [x === false] *)
Definition isFalse (v : JSValue) : bool :=
  match v with
  | JBool false => true
  | _ => false
  end.

(** [parse({asset})], given [postcss.parse(code, {from})]. *)
Definition parse {Program : Type}
    (postcss_parse : option string → FilePath → Outcome Program)
    (asset : CSSAsset) : Outcome (option (PostcssAST Program)) :=
  if isFalse (meta_hasDependencies asset) then Ret None
  else
    match getCode asset with
    | Throw e => Throw e
    | Ret code =>
        if (match code with
            | Some text => negb (canHaveDependencies (asset_filePath asset) text)
            | None => false
            end)
        then Ret None
        else
          match postcss_parse code (asset_filePath asset) with
          | Throw e => Throw e
          | Ret program => Ret (Some (mkPostcssAST "postcss" "7.0.0" program))
          end
    end.

End CSSTransformer.

(** ** Sample surroundings, used to exercise the statements below *)

Module Sample.

(** No inherited or exotic properties. *)
Definition noBuiltins (v : JSValue) (k : string) : JSValue := JUndefined.

(** A [loadConfig] over a fixed directory [/app]: the first candidate that
    is listed in [found] wins. *)
Fixpoint firstFound (found : list (string * JSValue)) (filePaths : list FilePath)
  : option LoadedConfig :=
  match filePaths with
  | [] => None
  | name :: rest =>
      match assoc name found with
      | Some content => Some (mkLoadedConfig content [mkConfigFile ("/app/" +:+ name)])
      | None => firstFound found rest
      end
  end.

Definition loadFrom (found : list (string * JSValue)) : LoadConfig :=
  λ _ _ filePaths _, Ret (firstFound found filePaths).

(** A [loadConfig] over two directories: a search that starts under [/lib]
    finds its files in [/lib], any other search finds them in [/app]. *)
Fixpoint firstFoundIn (dir : string) (found : list (string * JSValue))
    (filePaths : list FilePath) : option LoadedConfig :=
  match filePaths with
  | [] => None
  | name :: rest =>
      match assoc name found with
      | Some content => Some (mkLoadedConfig content [mkConfigFile (dir +:+ name)])
      | None => firstFoundIn dir found rest
      end
  end.

Definition loadNear (found : list (string * JSValue)) : LoadConfig :=
  λ _ searchPath filePaths _,
    Ret (firstFoundIn (if String.prefix "/lib/" searchPath then "/lib/" else "/app/")
           found filePaths).

Definition options : ParcelOptions := mkParcelOptions ∅.

Definition emptyConfig : Config :=
  mkConfig "/app/src/index.js" (JObject []) true None JUndefined None [] []
    JUndefined None false false false.

Definition start : World := mkWorld emptyConfig [].

Definition emptyHeap : Heap := mkHeap 0 ∅ ∅.

(** A Config on which all three flags have been set. *)
Definition flaggedConfig : Config :=
  mkConfig "/app/src/index.js" (JObject []) true None JUndefined None [] []
    JUndefined None true true true.

Definition flagged : World := mkWorld flaggedConfig [].

(** Package descriptors: [{"foo": {"x": 1}}], [{"foo": false}] and
    [{"bar": 1}]; and the content of a config file, [{"y": 2}]. *)
Definition pkgFoo : JSValue := JObject [("foo", JObject [("x", JNumber 1)])].
Definition pkgFooFalse : JSValue := JObject [("foo", JBool false)].
Definition pkgBar : JSValue := JObject [("bar", JNumber 1)].
Definition someConfig : JSValue := JObject [("y", JNumber 2)].

(** [{packageKey: "foo"}] *)
Definition keyFoo : option ConfigOptions :=
  Some (mkConfigOptions (Some "foo") None None).

(** The searches of the samples: for the package descriptor, then for the
    candidate. *)
Definition packageSearch : LoadCall :=
  mkLoadCall "/app/src/index.js" ["package.json"] None.
Definition candidateSearch : LoadCall :=
  mkLoadCall "/app/src/index.js" ["some.config.js"] None.

(** An [extname] for the samples: the last component of the path from its
    last dot on. *)
Fixpoint extname (path : string) : string :=
  match path with
  | EmptyString => EmptyString
  | String c rest =>
      match extname rest with
      | EmptyString =>
          if String.eqb (String c EmptyString) "." then
            match String.index 0 "/" rest with
            | None => path
            | Some _ => EmptyString
            end
          else EmptyString
      | ext => ext
      end
  end.

(** Package descriptors listing libraries: [{"dependencies": {"preact":
    "^10.0.0", "hyperapp": "^2.0.0"}}] and [{"alias": {"react":
    "preact/compat"}, "devDependencies": {"nervjs": "1"}}]. *)
Definition pkgPreact : JSValue :=
  JObject [("dependencies",
            JObject [("preact", JString "^10.0.0"); ("hyperapp", JString "^2.0.0")])].
Definition pkgAlias : JSValue :=
  JObject [("alias", JObject [("react", JString "preact/compat")]);
           ("devDependencies", JObject [("nervjs", JString "1")])].

(** A [loadConfig] that rejects whenever [name] is among the candidates. *)
Definition failOn (name : string) (found : list (string * JSValue)) : LoadConfig :=
  λ _ _ filePaths _,
    if bool_decide (name ∈ filePaths)
    then Throw (LoadConfigError ("Cannot parse " +:+ name))
    else Ret (firstFound found filePaths).

(** A [postcss.parse] that keeps the text. *)
Definition postcssKeep (code : option string) (from : FilePath) : Outcome string :=
  match code with
  | Some text => Ret text
  | None => Throw (TypeError "no code")
  end.

(** A Config whose resolved path is a configuration file, one for a
    [.jsx] asset, and one for an asset that is not source code. *)
Definition resolved : World :=
  mkWorld (with_resolvedPath (Some "/app/.babelrc") emptyConfig) [].

Definition jsxStart : World :=
  mkWorld (mkConfig "/app/src/App.jsx" (JObject []) true None JUndefined None [] []
             JUndefined None false false false) [].

Definition dependency : World :=
  mkWorld (mkConfig "/app/node_modules/lib/index.js" (JObject []) false None
             JUndefined None [] [] JUndefined None false false false) [].

(** [{exclude: true}] *)
Definition excluded : option ConfigOptions :=
  Some (mkConfigOptions None None (Some true)).

(** Style sheets: one without references, one with a quoted absolute URL. *)
Definition plainSheet : CSSTransformer.CSSAsset :=
  CSSTransformer.mkCSSAsset JUndefined "/app/src/a.css" (Ret (Some "a { color: red }")).

Definition quotedSheet : CSSTransformer.CSSAsset :=
  CSSTransformer.mkCSSAsset JUndefined "/app/src/b.css"
    (Ret (Some ("a { background: url(" +:+ CSSTransformer.dquote +:+
                "http://example.org/i.png" +:+ CSSTransformer.dquote +:+ ") }"))).

End Sample.

(** ** The methods of PublicConfig *)

Section PublicConfig.

(** A property read that finds no own property of a plain object: inherited
    members, array indices, [length] and the like; [undefined] for an
    ordinary key. *)
Variable builtinProp : JSValue → string → JSValue.

Variable loadConfig : LoadConfig.

(** The private field [#options] of the wrapper. *)
Variable this_options : ParcelOptions.

(** [v[k]] for a [v] that is neither [null] nor [undefined]. *)
Definition getProp (v : JSValue) (k : string) : JSValue :=
  match getOwnProperty v k with
  | Some x => x
  | None => builtinProp v k
  end.

(** [await loadConfig(fs, searchPath, filePaths, opts)], logged. *)
Definition callLoadConfig (fs : FileSystem) (searchPath : FilePath)
    (filePaths : list FilePath) (opts : option LoadOptions)
  : Eff (option LoadedConfig) :=
  λ w, (loadConfig fs searchPath filePaths opts,
        mkWorld (this_config w) (loads w ++ [mkLoadCall searchPath filePaths opts])).

(** Getters. *)
Definition get_env : Eff PublicEnvironment :=
  c ← getThisConfig; mret (Environment (env c)).

Definition get_searchPath : Eff FilePath :=
  c ← getThisConfig; mret (searchPath c).

Definition get_result : Eff JSValue :=
  c ← getThisConfig; mret (result c).

Definition get_isSource : Eff bool :=
  c ← getThisConfig; mret (isSource c).

Definition get_resolvedPath : Eff (option FilePath) :=
  c ← getThisConfig; mret (resolvedPath c).

(** Mutators. *)
Definition setResolvedPath (filePath : FilePath) : Eff unit :=
  updateThisConfig (with_resolvedPath (Some filePath)).

Definition setResult (result : JSValue) : Eff unit :=
  updateThisConfig (with_result result).

Definition setResultHash (resultHash : string) : Eff unit :=
  updateThisConfig (with_resultHash (Some resultHash)).

Definition addIncludedFile (filePath : FilePath) : Eff unit :=
  updateThisConfig (λ c, with_includedFiles (Set_add filePath (includedFiles c)) c).

Definition addDevDependency (name : PackageName) (version : option string) : Eff unit :=
  updateThisConfig (λ c, with_devDeps (Map_set name version (devDeps c)) c).

Definition setWatchGlob (glob : Glob) : Eff unit :=
  updateThisConfig (with_watchGlob (Some glob)).

Definition shouldRehydrate : Eff unit :=
  updateThisConfig (with_shouldRehydrate true).

Definition shouldReload : Eff unit :=
  updateThisConfig (with_shouldReload true).

Definition shouldInvalidateOnStartup : Eff unit :=
  updateThisConfig (with_shouldInvalidateOnStartup true).

(** [conf.files[0].filePath]; reading [filePath] of [undefined] throws. *)
Definition firstFilePath (conf : LoadedConfig) : Eff FilePath :=
  match files conf with
  | file :: _ => mret (filePath file)
  | [] => throw (TypeError "Cannot read property 'filePath' of undefined")
  end.

(** [!options || !options.exclude] *)
Definition notExcluded (options : option ConfigOptions) : bool :=
  match options with
  | None => true
  | Some o => match exclude o with Some true => false | _ => true end
  end.

(** [resolvedPath == null || resolvedPath.endsWith('package.json')] *)
Definition takesResolvedPath (resolvedPath : option FilePath) : bool :=
  match resolvedPath with
  | None => true
  | Some p => endsWith p "package.json"
  end.

(** [let parse = options && options.parse], then
    [parse == null ? null : {parse}] *)
Definition loadOptionsFor (options : option ConfigOptions) : option LoadOptions :=
  let parse := options ≫= parse in
  match parse with
  | None => None
  | Some parse => Some (mkLoadOptions parse)
  end.

(** The second half of [getConfigFrom], reached when the package
    descriptor did not settle the call: search for the candidates, record
    the file that was found, return its content. *)
Definition loadAndRecord (searchPath : FilePath) (filePaths : list FilePath)
    (options : option ConfigOptions) : Eff JSValue :=
  conf ← callLoadConfig (inputFS this_options) searchPath filePaths
           (loadOptionsFor options);
  match conf with
  | None => mret JNull
  | Some conf =>
      (if notExcluded options then
         c ← getThisConfig;
         if takesResolvedPath (resolvedPath c)
         then (p ← firstFilePath conf; setResolvedPath p)
         else (p ← firstFilePath conf; addIncludedFile p)
       else mret tt);;
      mret (config conf)
  end.

(** The body of [getConfigFrom], with the [getPackage] it calls left open. *)
Definition getConfigFrom_body (getPackage : Eff JSValue)
    (searchPath : FilePath) (filePaths : list FilePath)
    (options : option ConfigOptions) : Eff JSValue :=
  match options ≫= packageKey with
  | Some packageKey =>
      pkg ← getPackage;
      if truthy pkg && truthy (getProp pkg packageKey)
      then mret (getProp pkg packageKey)
      else loadAndRecord searchPath filePaths options
  | None => loadAndRecord searchPath filePaths options
  end.

(** The body of [getPackage], with the [getConfig] it calls left open. *)
Definition getPackage_body
    (getConfig : list FilePath → option ConfigOptions → Eff JSValue) : Eff JSValue :=
  c ← getThisConfig;
  if truthy (pkg c) then mret (pkg c)
  else
    found ← getConfig ["package.json"] None;
    updateThisConfig (with_pkg found);;
    c' ← getThisConfig;
    mret (pkg c').

(** [getConfigFrom], [getConfig] and [getPackage] call each other, but only
    two deep: [getPackage] asks for ['package.json'] with no options, and
    without a [packageKey] the body of [getConfigFrom] does not call
    [getPackage].  The innermost [getPackage] is therefore never run; the
    equations [getPackage_unfold] and [getConfigFrom_unfold] below show that
    the definitions satisfy the recursive equations of the source. *)
Definition getPackage : Eff JSValue :=
  getPackage_body (λ filePaths options,
    searchPath ← get_searchPath;
    getConfigFrom_body (throw (TypeError "not reached")) searchPath filePaths options).

Definition getConfigFrom (searchPath : FilePath) (filePaths : list FilePath)
    (options : option ConfigOptions) : Eff JSValue :=
  getConfigFrom_body getPackage searchPath filePaths options.

Definition getConfig (filePaths : list FilePath) (options : option ConfigOptions)
  : Eff JSValue :=
  searchPath ← get_searchPath;
  getConfigFrom searchPath filePaths options.

(** ** getJSXOptions, a caller of [getPackage] *)

(** [path.extname] of Node. *)
Variable extname : string → string.

(** [v?.k] *)
Definition optionalProp (v : JSValue) (k : string) : JSValue :=
  match v with
  | JUndefined | JNull => JUndefined
  | _ => getProp v k
  end.

(** [a && a[k]] *)
Definition andProp (a : JSValue) (k : string) : JSValue :=
  if truthy a then getProp a k else a.

(** [v.k], which throws when [v] is [undefined] or [null]. *)
Definition member (v : JSValue) (k : string) : Eff JSValue :=
  match v with
  | JUndefined | JNull => throw (TypeError "Cannot read property of undefined")
  | _ => mret (getProp v k)
  end.

(** The callback given to [find]:
    [pkg && ((pkg.dependencies && pkg.dependencies[libName]) ||
             (pkg.devDependencies && pkg.devDependencies[libName]))] *)
Definition dependsOn (pkg : JSValue) (libName : string) : JSValue :=
  if truthy pkg then
    let listed := andProp (getProp pkg "dependencies") libName in
    if truthy listed then listed
    else andProp (getProp pkg "devDependencies") libName
  else pkg.

(** [reactLib ? ... : undefined] on a string or [undefined]. *)
Definition isLibrary (reactLib : option string) : bool :=
  match reactLib with
  | Some name => negb (String.eqb name "")
  | None => false
  end.

(** [getJSXOptions] from the package descriptor on. *)
Definition jsxFromPackage (options : PluginOptions) (pkg : JSValue) : Eff JSValue :=
  let reactLib :=
    if truthy (andProp (optionalProp pkg "alias") "react") then Some "react"
    else Array_find (dependsOn pkg) (Object_keys JSX_PRAGMA) in
  pragma ← (match reactLib with
            | Some name =>
                if isLibrary reactLib
                then (entry ← member JSX_PRAGMA name; member entry "pragma")
                else mret JUndefined
            | None => mret JUndefined
            end);
  pragmaFrag ← (match reactLib with
                | Some name =>
                    if isLibrary reactLib
                    then (entry ← member JSX_PRAGMA name; member entry "pragmaFrag")
                    else mret JUndefined
                | None => mret JUndefined
                end);
  searchPath ← get_searchPath;
  if truthy pragma || truthy (getProp JSX_EXTENSIONS (extname searchPath))
  then mret (jsxPresets pragma pragmaFrag (String.eqb (mode options) "development"))
  else mret JUndefined.

Definition getJSXOptions (options : PluginOptions) : Eff JSValue :=
  isSource ← get_isSource;
  if negb isSource then mret JNull
  else
    pkg ← getPackage;
    jsxFromPackage options pkg.

(** ** The public interface as a set of operations *)

Inductive Op : Type :=
| OpGetEnv
| OpGetSearchPath
| OpGetResult
| OpGetIsSource
| OpGetResolvedPath
| OpSetResolvedPath (filePath : FilePath)
| OpSetResult (result : JSValue)
| OpSetResultHash (resultHash : string)
| OpAddIncludedFile (filePath : FilePath)
| OpAddDevDependency (name : PackageName) (version : option string)
| OpSetWatchGlob (glob : Glob)
| OpShouldRehydrate
| OpShouldReload
| OpShouldInvalidateOnStartup
| OpGetConfigFrom (searchPath : FilePath) (filePaths : list FilePath)
    (options : option ConfigOptions)
| OpGetConfig (filePaths : list FilePath) (options : option ConfigOptions)
| OpGetPackage.

(** The world after one operation, whatever it returned or threw. *)
Definition execOp (op : Op) (w : World) : World :=
  match op with
  | OpGetEnv => worldOf (get_env w)
  | OpGetSearchPath => worldOf (get_searchPath w)
  | OpGetResult => worldOf (get_result w)
  | OpGetIsSource => worldOf (get_isSource w)
  | OpGetResolvedPath => worldOf (get_resolvedPath w)
  | OpSetResolvedPath p => worldOf (setResolvedPath p w)
  | OpSetResult v => worldOf (setResult v w)
  | OpSetResultHash h => worldOf (setResultHash h w)
  | OpAddIncludedFile p => worldOf (addIncludedFile p w)
  | OpAddDevDependency n v => worldOf (addDevDependency n v w)
  | OpSetWatchGlob g => worldOf (setWatchGlob g w)
  | OpShouldRehydrate => worldOf (shouldRehydrate w)
  | OpShouldReload => worldOf (shouldReload w)
  | OpShouldInvalidateOnStartup => worldOf (shouldInvalidateOnStartup w)
  | OpGetConfigFrom sp fps o => worldOf (getConfigFrom sp fps o w)
  | OpGetConfig fps o => worldOf (getConfig fps o w)
  | OpGetPackage => worldOf (getPackage w)
  end.

(** Any sequence of operations; a caller may catch what one of them throws
    and go on. *)
Definition execOps (ops : list Op) (w : World) : World :=
  foldl (λ w op, execOp op w) w ops.

(** ** Vocabulary of the statements *)

(** The world in which the search for the candidates starts: the one
    [getPackage()] leaves when a [packageKey] is given, the initial one
    otherwise. *)
Definition afterPackageLookup (options : option ConfigOptions) (w : World) : World :=
  match options ≫= packageKey with
  | Some _ => worldOf (getPackage w)
  | None => w
  end.

(** Whether a call goes on to search for the candidates: no [packageKey],
    or a package lookup that returned and did not settle the call. *)
Definition searchesCandidates (options : option ConfigOptions) (w : World) : bool :=
  match options ≫= packageKey with
  | None => true
  | Some key =>
      match outcomeOf (getPackage w) with
      | Ret pkg => negb (truthy pkg && truthy (getProp pkg key))
      | Throw _ => false
      end
  end.

(** The world once a search has been logged. *)
Definition logged (searchPath : FilePath) (filePaths : list FilePath)
    (options : option ConfigOptions) (w : World) : World :=
  mkWorld (this_config w)
    (loads w ++ [mkLoadCall searchPath filePaths (loadOptionsFor options)]).

(** How a found file is recorded on a Config. *)
Definition recordFound (p : FilePath) (c : Config) : Config :=
  if takesResolvedPath (resolvedPath c)
  then with_resolvedPath (Some p) c
  else with_includedFiles (Set_add p (includedFiles c)) c.

(** What every operation of the interface keeps of a Config: a flag that is
    set stays set, and a package descriptor that is cached stays the one
    cached. *)
Definition keeps (c c' : Config) : Prop :=
  (shouldRehydrate_flag c = true → shouldRehydrate_flag c' = true) ∧
  (shouldReload_flag c = true → shouldReload_flag c' = true) ∧
  (shouldInvalidateOnStartup_flag c = true → shouldInvalidateOnStartup_flag c' = true) ∧
  (truthy (pkg c) = true → pkg c' = pkg c).

(** What every operation keeps of the bookkeeping: the fields that no
    method assigns, what has been recorded so far and in which order, a
    resolved path once there is one, and the absence of duplicates. *)
Definition grows (c c' : Config) : Prop :=
  searchPath c' = searchPath c ∧
  env c' = env c ∧
  isSource c' = isSource c ∧
  includedFiles c `prefix_of` includedFiles c' ∧
  (devDeps c).*1 `prefix_of` (devDeps c').*1 ∧
  (is_Some (resolvedPath c) → is_Some (resolvedPath c')) ∧
  (NoDup (includedFiles c) → NoDup (includedFiles c')) ∧
  (NoDup (devDeps c).*1 → NoDup (devDeps c').*1).

(** What the resolving methods ([getConfigFrom], [getConfig], [getPackage])
    leave alone: everything but [resolvedPath], [includedFiles] and [pkg]. *)
Definition resolvingFrame (c c' : Config) : Prop :=
  searchPath c' = searchPath c ∧
  env c' = env c ∧
  isSource c' = isSource c ∧
  result c' = result c ∧
  resultHash c' = resultHash c ∧
  devDeps c' = devDeps c ∧
  watchGlob c' = watchGlob c ∧
  shouldRehydrate_flag c' = shouldRehydrate_flag c ∧
  shouldReload_flag c' = shouldReload_flag c ∧
  shouldInvalidateOnStartup_flag c' = shouldInvalidateOnStartup_flag c.

(** The one operation that assigns [resolvedPath] whatever it holds. *)
Definition assignsResolvedPath (op : Op) : bool :=
  match op with
  | OpSetResolvedPath _ => true
  | _ => false
  end.

(** ** Equations of the recursive methods *)

Lemma getPackage_unfold : getPackage = getPackage_body getConfig.
Proof. reflexivity. Qed.

Lemma getConfigFrom_unfold searchPath filePaths options :
  getConfigFrom searchPath filePaths options
  = getConfigFrom_body getPackage searchPath filePaths options.
Proof. reflexivity. Qed.

(** ** The JavaScript primitives on small inputs *)

Example truthy_samples :
  map truthy [JUndefined; JNull; JBool false; JNumber 0; JNumber (-0); JNumber nan;
              JString ""; JString "0"; JNumber 1; JArray []; JObject []; JFunction "f"]
  = [false; false; false; false; false; false; false; true; true; true; true; true].
Proof. reflexivity. Qed.

Example endsWith_samples :
  map (λ p, endsWith p "package.json")
    ["/app/package.json"; "package.json"; "/app/package.json5"; "json"; "";
     "/app/my-package.json"]
  = [true; true; false; false; false; true].
Proof. reflexivity. Qed.

Example Set_add_samples :
  Set_add "b" ["a"; "b"; "c"] = ["a"; "b"; "c"] ∧
  Set_add "d" ["a"; "b"; "c"] = ["a"; "b"; "c"; "d"].
Proof. split; reflexivity. Qed.

Example Map_set_samples :
  Map_set "b" (Some "^2.0.0") [("a", None); ("b", Some "^1.0.0")]
  = [("a", None); ("b", Some "^2.0.0")] ∧
  Map_set "c" None [("a", None); ("b", Some "^1.0.0")]
  = [("a", None); ("b", Some "^1.0.0"); ("c", None)].
Proof. split; reflexivity. Qed.

(** ** Collections *)

Lemma Set_add_idem (x : string) (s : JSSet) :
  Set_add x (Set_add x s) = Set_add x s.
Proof.
  unfold Set_add. destruct (decide (x ∈ s)) as [Hin|Hout].
  - by rewrite decide_True.
  - rewrite decide_True; [done|]. apply elem_of_app. right. by apply list_elem_of_singleton.
Qed.

Lemma Set_has_add (x y : string) (s : JSSet) :
  Set_has y (Set_add x s) = bool_decide (y = x) || Set_has y s.
Proof.
  unfold Set_has, Set_add.
  destruct (decide (x ∈ s)) as [Hin|Hout];
    repeat case_bool_decide; simpl; try done; subst; try done.
  - exfalso. apply elem_of_app in H as [?|?%list_elem_of_singleton]; done.
  - exfalso. apply H, elem_of_app. right. by apply list_elem_of_singleton.
  - exfalso. apply H, elem_of_app. by left.
Qed.

Lemma Map_get_set {V : Type} (k k' : string) (v : V) (m : JSMap V) :
  Map_get k' (Map_set k v m) = if String.eqb k' k then Some v else Map_get k' m.
Proof.
  unfold Map_get. induction m as [|[k0 v0] rest IH]; simpl.
  - rewrite (String.eqb_sym k k'). by destruct (String.eqb k' k).
  - destruct (String.eqb k0 k) eqn:E0; simpl.
    + apply String.eqb_eq in E0 as ->. rewrite (String.eqb_sym k k').
      by destruct (String.eqb k' k).
    + destruct (String.eqb k0 k') eqn:E1; [|exact IH].
      apply String.eqb_eq in E1 as ->. by rewrite E0.
Qed.

Lemma Map_set_set {V : Type} (k : string) (v1 v2 : V) (m : JSMap V) :
  Map_set k v2 (Map_set k v1 m) = Map_set k v2 m.
Proof.
  induction m as [|[k0 v0] rest IH]; simpl.
  - by rewrite String.eqb_refl.
  - destruct (String.eqb k0 k) eqn:E0; simpl.
    + by rewrite String.eqb_refl.
    + by rewrite E0, IH.
Qed.

(** ** Setters and mutators *)

(** C8: each mutator of the Config Result writes its own field and no other:
    [addIncludedFile] only [includedFiles], [addDevDependency] only
    [devDeps], [setWatchGlob] only [watchGlob], [setResolvedPath] only
    [resolvedPath], [setResult] only [result], [setResultHash] only
    [resultHash].  None of them searches for files, and none throws. *)
Theorem mutators_touch_only_their_field (w : World) :
  (∀ p, addIncludedFile p w
        = (Ret tt, mkWorld (this_config (worldOf (addIncludedFile p w))) (loads w))
        ∧ unchangedExcept FIncludedFiles (this_config w)
            (this_config (worldOf (addIncludedFile p w)))) ∧
  (∀ n v, addDevDependency n v w
        = (Ret tt, mkWorld (this_config (worldOf (addDevDependency n v w))) (loads w))
        ∧ unchangedExcept FDevDeps (this_config w)
            (this_config (worldOf (addDevDependency n v w)))) ∧
  (∀ g, setWatchGlob g w
        = (Ret tt, mkWorld (this_config (worldOf (setWatchGlob g w))) (loads w))
        ∧ unchangedExcept FWatchGlob (this_config w)
            (this_config (worldOf (setWatchGlob g w)))) ∧
  (∀ p, setResolvedPath p w
        = (Ret tt, mkWorld (this_config (worldOf (setResolvedPath p w))) (loads w))
        ∧ unchangedExcept FResolvedPath (this_config w)
            (this_config (worldOf (setResolvedPath p w)))) ∧
  (∀ v, setResult v w
        = (Ret tt, mkWorld (this_config (worldOf (setResult v w))) (loads w))
        ∧ unchangedExcept FResult (this_config w)
            (this_config (worldOf (setResult v w)))) ∧
  (∀ h, setResultHash h w
        = (Ret tt, mkWorld (this_config (worldOf (setResultHash h w))) (loads w))
        ∧ unchangedExcept FResultHash (this_config w)
            (this_config (worldOf (setResultHash h w)))).
Proof.
  repeat split; try reflexivity; simpl; auto.
Qed.

(** C9: [addIncludedFile] is idempotent: adding the same path a second time
    changes nothing, in the Config or elsewhere. *)
Theorem addIncludedFile_idempotent (w : World) (p : FilePath) :
  addIncludedFile p (worldOf (addIncludedFile p w)) = addIncludedFile p w.
Proof.
  unfold addIncludedFile, updateThisConfig, worldOf, with_includedFiles; simpl.
  by rewrite Set_add_idem.
Qed.

(** C10: [addDevDependency] is last-write-wins per package name: after
    [addDevDependency(name, v1)] and then [addDevDependency(name, v2)] the
    map gives [v2] for [name] and what it gave before for every other
    name; the result is the one of the second call alone, and no other
    field has changed. *)
Theorem addDevDependency_last_write_wins (w : World) (name : PackageName)
    (v1 v2 : option string) :
  let w2 := worldOf (addDevDependency name v2 (worldOf (addDevDependency name v1 w))) in
  (∀ other, Map_get other (devDeps (this_config w2))
            = if String.eqb other name then Some v2
              else Map_get other (devDeps (this_config w))) ∧
  w2 = worldOf (addDevDependency name v2 w) ∧
  unchangedExcept FDevDeps (this_config w) (this_config w2).
Proof.
  simpl. split; [|split].
  - intros other. rewrite Map_get_set.
    destruct (String.eqb other name) eqn:E; [done|]. by rewrite Map_get_set, E.
  - unfold worldOf; simpl. unfold with_devDeps; simpl. by rewrite Map_set_set.
  - repeat split; auto.
Qed.

(** ** The search and its bookkeeping *)

Lemma loadAndRecord_eq searchPath filePaths options w :
  loadAndRecord searchPath filePaths options w =
  match loadConfig (inputFS this_options) searchPath filePaths (loadOptionsFor options) with
  | Throw e => (Throw e, logged searchPath filePaths options w)
  | Ret None => (Ret JNull, logged searchPath filePaths options w)
  | Ret (Some conf) =>
      if notExcluded options then
        match files conf with
        | [] => (Throw (TypeError "Cannot read property 'filePath' of undefined"),
                 logged searchPath filePaths options w)
        | f :: _ =>
            (Ret (config conf),
             mkWorld (recordFound (filePath f) (this_config w))
               (loads (logged searchPath filePaths options w)))
        end
      else (Ret (config conf), logged searchPath filePaths options w)
  end.
Proof.
  unfold loadAndRecord, callLoadConfig, logged, recordFound, firstFilePath.
  unfold mbind, Eff_bind, mret, Eff_ret, throw, getThisConfig; simpl.
  destruct (loadConfig _ _ _ _) as [[conf|]|e]; try reflexivity.
  destruct (notExcluded options); [|reflexivity]; simpl.
  destruct (takesResolvedPath (resolvedPath (this_config w)));
    destruct (files conf) as [|f rest]; reflexivity.
Qed.

Lemma getPackage_eq w :
  getPackage w =
  if truthy (pkg (this_config w)) then (Ret (pkg (this_config w)), w)
  else
    match loadAndRecord (searchPath (this_config w)) ["package.json"] None w with
    | (Ret found, w') => (Ret found, mkWorld (with_pkg found (this_config w')) (loads w'))
    | (Throw e, w') => (Throw e, w')
    end.
Proof.
  unfold getPackage, getPackage_body, get_searchPath, getConfigFrom_body.
  unfold mbind, Eff_bind, mret, Eff_ret, getThisConfig, updateThisConfig; simpl.
  destruct (truthy (pkg (this_config w))); [reflexivity|].
  by destruct (loadAndRecord _ _ _ w) as [[found|e] w'].
Qed.

Lemma getConfigFrom_eq searchPath filePaths options w :
  getConfigFrom searchPath filePaths options w =
  match options ≫= packageKey with
  | None => loadAndRecord searchPath filePaths options w
  | Some key =>
      match getPackage w with
      | (Ret pkg, w') =>
          if truthy pkg && truthy (getProp pkg key)
          then (Ret (getProp pkg key), w')
          else loadAndRecord searchPath filePaths options w'
      | (Throw e, w') => (Throw e, w')
      end
  end.
Proof.
  unfold getConfigFrom, getConfigFrom_body.
  destruct (options ≫= packageKey) as [key|]; [|reflexivity].
  unfold mbind at 1, Eff_bind at 1.
  destruct (getPackage w) as [[pkgv|e] w']; [|reflexivity].
  by destruct (truthy pkgv && truthy (getProp pkgv key)).
Qed.

(** A cached package descriptor is returned as it is: no search, no write. *)
Lemma getPackage_cached w :
  truthy (pkg (this_config w)) = true →
  getPackage w = (Ret (pkg (this_config w)), w).
Proof. intros H. by rewrite getPackage_eq, H. Qed.

(** Whatever [getPackage] returns is what the Config then holds. *)
Lemma getPackage_returns_pkg w v w' :
  getPackage w = (Ret v, w') → pkg (this_config w') = v.
Proof.
  rewrite getPackage_eq.
  destruct (truthy (pkg (this_config w))).
  - by intros [= <- <-].
  - destruct (loadAndRecord _ _ _ w) as [[found|e] w1]; [|done].
    by intros [= <- <-].
Qed.

(** Where the searches of a call are rooted. *)
Lemma loadAndRecord_loads searchPath filePaths options w :
  loads (worldOf (loadAndRecord searchPath filePaths options w))
  = loads w ++ [mkLoadCall searchPath filePaths (loadOptionsFor options)].
Proof.
  rewrite loadAndRecord_eq.
  destruct (loadConfig _ _ _ _) as [[conf|]|e]; try reflexivity.
  destruct (notExcluded options); [|reflexivity].
  by destruct (files conf).
Qed.

Lemma getPackage_loads w :
  ∃ calls,
    loads (worldOf (getPackage w)) = loads w ++ calls ∧
    Forall (λ call, call_searchPath call = searchPath (this_config w)) calls.
Proof.
  rewrite getPackage_eq.
  destruct (truthy (pkg (this_config w))).
  - exists []. split; [by rewrite app_nil_r|constructor].
  - exists [mkLoadCall (searchPath (this_config w)) ["package.json"] None].
    split; [|by repeat constructor].
    pose proof (loadAndRecord_loads (searchPath (this_config w)) ["package.json"] None w) as L.
    by destruct (loadAndRecord _ _ _ w) as [[found|e] w'].
Qed.

(** C4: [getConfig(filePaths, options)] is [getConfigFrom(searchPath,
    filePaths, options)] at the search path of the Config itself: same
    outcome, same final Config, same searches; and every search it makes is
    rooted at that path. *)
Theorem getConfig_is_getConfigFrom_searchPath (w : World)
    (filePaths : list FilePath) (options : option ConfigOptions) :
  getConfig filePaths options w
  = getConfigFrom (searchPath (this_config w)) filePaths options w ∧
  ∃ calls,
    loads (worldOf (getConfig filePaths options w)) = loads w ++ calls ∧
    Forall (λ call, call_searchPath call = searchPath (this_config w)) calls.
Proof.
  assert (getConfig filePaths options w
          = getConfigFrom (searchPath (this_config w)) filePaths options w) as Heq
    by reflexivity.
  split; [exact Heq|]. rewrite Heq, getConfigFrom_eq.
  destruct (options ≫= packageKey) as [key|].
  - destruct (getPackage_loads w) as (calls & Hloads & Hrooted).
    destruct (getPackage w) as [[pkgv|e] w1]; simpl in *; [|by exists calls].
    destruct (truthy pkgv && truthy (getProp pkgv key)); [by exists calls|].
    exists (calls ++ [mkLoadCall (searchPath (this_config w)) filePaths
                        (loadOptionsFor options)]).
    rewrite loadAndRecord_loads, Hloads, app_assoc. split; [done|].
    apply Forall_app. split; [done|by repeat constructor].
  - exists [mkLoadCall (searchPath (this_config w)) filePaths (loadOptionsFor options)].
    rewrite loadAndRecord_loads. split; [done|by repeat constructor].
Qed.

(** The package lookup does not change which way a found file is recorded,
    as long as the file [loadConfig] finds for ['package.json'] is named
    [package.json]. *)
Lemma getPackage_keeps_takesResolvedPath w :
  (∀ conf f rest,
     loadConfig (inputFS this_options) (searchPath (this_config w)) ["package.json"] None
       = Ret (Some conf) →
     files conf = f :: rest →
     endsWith (filePath f) "package.json" = true) →
  takesResolvedPath (resolvedPath (this_config (worldOf (getPackage w))))
  = takesResolvedPath (resolvedPath (this_config w)).
Proof.
  intros Hnamed. rewrite getPackage_eq.
  destruct (truthy (pkg (this_config w))); [reflexivity|].
  rewrite loadAndRecord_eq. change (loadOptionsFor None) with (@None LoadOptions).
  destruct (loadConfig _ _ _ _) as [[conf|]|e] eqn:Hload; try reflexivity.
  simpl. destruct (files conf) as [|f rest] eqn:Hfiles; [reflexivity|].
  simpl. unfold recordFound.
  destruct (takesResolvedPath (resolvedPath (this_config w))) eqn:Htakes; simpl.
  - by apply (Hnamed conf f rest).
  - exact Htakes.
Qed.

(** ** What the operations keep *)

Lemma keeps_refl c : keeps c c.
Proof. by repeat split. Qed.

Lemma keeps_trans c1 c2 c3 : keeps c1 c2 → keeps c2 c3 → keeps c1 c3.
Proof.
  intros (A1 & A2 & A3 & A4) (B1 & B2 & B3 & B4). repeat split; auto.
  intros H. rewrite <- (A4 H). apply B4. by rewrite (A4 H).
Qed.

Lemma keeps_recordFound p c : keeps c (recordFound p c).
Proof. unfold recordFound. destruct (takesResolvedPath _); by repeat split. Qed.

Lemma loadAndRecord_keeps searchPath filePaths options w :
  keeps (this_config w) (this_config (worldOf (loadAndRecord searchPath filePaths options w))).
Proof.
  rewrite loadAndRecord_eq.
  destruct (loadConfig _ _ _ _) as [[conf|]|e]; simpl; try apply keeps_refl.
  destruct (notExcluded options); simpl; [|apply keeps_refl].
  destruct (files conf); simpl; [apply keeps_refl|apply keeps_recordFound].
Qed.

Lemma getPackage_keeps w :
  keeps (this_config w) (this_config (worldOf (getPackage w))).
Proof.
  rewrite getPackage_eq.
  destruct (truthy (pkg (this_config w))) eqn:Hpkg; [apply keeps_refl|].
  pose proof (loadAndRecord_keeps (searchPath (this_config w)) ["package.json"] None w) as K.
  destruct (loadAndRecord _ _ _ w) as [[found|e] w1]; simpl in *; [|exact K].
  destruct K as (K1 & K2 & K3 & K4). repeat split; auto.
  rewrite Hpkg. discriminate.
Qed.

Lemma getConfigFrom_keeps searchPath filePaths options w :
  keeps (this_config w) (this_config (worldOf (getConfigFrom searchPath filePaths options w))).
Proof.
  rewrite getConfigFrom_eq.
  destruct (options ≫= packageKey) as [key|]; [|apply loadAndRecord_keeps].
  pose proof (getPackage_keeps w) as K.
  destruct (getPackage w) as [[pkgv|e] w1]; simpl in *; [|exact K].
  destruct (truthy pkgv && truthy (getProp pkgv key)); [exact K|].
  eapply keeps_trans; [exact K|apply loadAndRecord_keeps].
Qed.

Lemma execOp_keeps op w : keeps (this_config w) (this_config (execOp op w)).
Proof.
  destruct op; simpl;
    try apply keeps_refl;
    try apply getConfigFrom_keeps;
    try apply getPackage_keeps;
    try (by repeat split).
Qed.

Lemma execOps_keeps ops w : keeps (this_config w) (this_config (execOps ops w)).
Proof.
  revert w. induction ops as [|op ops IH]; intros w; simpl.
  - apply keeps_refl.
  - eapply keeps_trans; [apply execOp_keeps|apply IH].
Qed.

(** ** Resolving configuration *)

(** C1, as amended: when a [packageKey] is given and the package descriptor
    returned by [getPackage()] has that key with a truthy value, the call
    returns that value and leaves the world exactly as [getPackage()] left
    it: the candidates are not searched for, and nothing else is written. *)
Theorem getConfigFrom_packageKey_shortcut (w w1 : World) (root : FilePath)
    (filePaths : list FilePath) (options : option ConfigOptions)
    (key : string) (pkgv v : JSValue) :
  options ≫= packageKey = Some key →
  getPackage w = (Ret pkgv, w1) →
  getOwnProperty pkgv key = Some v →
  truthy v = true →
  getConfigFrom root filePaths options w = (Ret v, w1) ∧
  getConfig filePaths options w = (Ret v, w1).
Proof.
  intros Hkey Hpkg Hown Hv.
  assert (getProp pkgv key = v) as Hprop by (unfold getProp; by rewrite Hown).
  assert (truthy pkgv = true) as Hobj by (by destruct pkgv).
  assert (∀ sp, getConfigFrom sp filePaths options w = (Ret v, w1)) as Hall.
  { intros sp. rewrite getConfigFrom_eq, Hkey, Hpkg, Hprop, Hobj, Hv. reflexivity. }
  split; [apply Hall|]. apply (Hall (searchPath (this_config w))).
Qed.

(** C2, as amended: a call that finds a config file and whose options do
    not set [exclude] records the path of that file.  If, when the file is
    recorded, the Config has no [resolvedPath] yet or one that ends in
    [package.json], the path becomes the [resolvedPath]: it replaces the
    earlier path, which is not moved to the included files.  Otherwise the
    path is added to [includedFiles] and [resolvedPath] stays.  Every other
    field is as it was when the search started. *)
Theorem getConfigFrom_records_found_file (w : World) (searchPath : FilePath)
    (filePaths : list FilePath) (options : option ConfigOptions)
    (conf : LoadedConfig) (f : ConfigFile) (rest : list ConfigFile) :
  searchesCandidates options w = true →
  notExcluded options = true →
  loadConfig (inputFS this_options) searchPath filePaths (loadOptionsFor options)
    = Ret (Some conf) →
  files conf = f :: rest →
  let c1 := this_config (afterPackageLookup options w) in
  let primary :=
    match resolvedPath c1 with
    | None => true
    | Some earlier => endsWith earlier "package.json"
    end in
  let after := this_config (worldOf (getConfigFrom searchPath filePaths options w)) in
  outcomeOf (getConfigFrom searchPath filePaths options w) = Ret (config conf) ∧
  resolvedPath after = (if primary then Some (filePath f) else resolvedPath c1) ∧
  includedFiles after
    = (if primary then includedFiles c1 else Set_add (filePath f) (includedFiles c1)) ∧
  primary || Set_has (filePath f) (includedFiles after) = true ∧
  unchangedExcept (if primary then FResolvedPath else FIncludedFiles) c1 after.
Proof.
  intros Hsearch Hexcl Hload Hfiles. simpl.
  unfold searchesCandidates, afterPackageLookup in *.
  rewrite getConfigFrom_eq.
  assert (∀ w', loadAndRecord searchPath filePaths options w'
           = (Ret (config conf),
              mkWorld (recordFound (filePath f) (this_config w'))
                (loads (logged searchPath filePaths options w')))) as Hrec.
  { intros w'. by rewrite loadAndRecord_eq, Hload, Hexcl, Hfiles. }
  assert (∀ c, let c' := recordFound (filePath f) c in
            let primary := takesResolvedPath (resolvedPath c) in
            resolvedPath c' = (if primary then Some (filePath f) else resolvedPath c) ∧
            includedFiles c'
              = (if primary then includedFiles c else Set_add (filePath f) (includedFiles c)) ∧
            primary || Set_has (filePath f) (includedFiles c') = true ∧
            unchangedExcept (if primary then FResolvedPath else FIncludedFiles) c c') as Hfound.
  { intros c. unfold recordFound. destruct (takesResolvedPath (resolvedPath c)); simpl.
    - repeat split; auto.
    - rewrite Set_has_add, bool_decide_eq_true_2 by done. repeat split; auto. }
  destruct (options ≫= packageKey) as [key|].
  - unfold outcomeOf, worldOf in *.
    destruct (getPackage w) as [[pkgv|e] w1]; simpl in *; [|done].
    apply negb_true_iff in Hsearch. rewrite Hsearch, Hrec. simpl.
    split; [done|]. apply Hfound.
  - rewrite Hrec. simpl. split; [done|]. apply Hfound.
Qed.

(** C7, as amended: a call that goes on to search for the candidates and
    finds none of them returns [null], and the search itself writes
    nothing.  The Config is then as it was before the call when no
    [packageKey] was given, and as the [getPackage()] call made for the
    [packageKey] left it otherwise. *)
Theorem getConfigFrom_nothing_found (w : World) (searchPath : FilePath)
    (filePaths : list FilePath) (options : option ConfigOptions) :
  searchesCandidates options w = true →
  loadConfig (inputFS this_options) searchPath filePaths (loadOptionsFor options)
    = Ret None →
  getConfigFrom searchPath filePaths options w
    = (Ret JNull, logged searchPath filePaths options (afterPackageLookup options w)) ∧
  match options ≫= packageKey with
  | None =>
      this_config (worldOf (getConfigFrom searchPath filePaths options w))
      = this_config w
  | Some _ =>
      this_config (worldOf (getConfigFrom searchPath filePaths options w))
      = this_config (worldOf (getPackage w))
  end.
Proof.
  intros Hsearch Hload.
  unfold searchesCandidates, afterPackageLookup in *.
  rewrite getConfigFrom_eq.
  assert (∀ w', loadAndRecord searchPath filePaths options w'
           = (Ret JNull, logged searchPath filePaths options w')) as Hrec.
  { intros w'. by rewrite loadAndRecord_eq, Hload. }
  destruct (options ≫= packageKey) as [key|].
  - unfold outcomeOf, worldOf in *.
    destruct (getPackage w) as [[pkgv|e] w1]; simpl in *; [|done].
    apply negb_true_iff in Hsearch. by rewrite Hsearch, Hrec.
  - by rewrite Hrec.
Qed.

(** ** The cached package descriptor *)

(** C3, as amended: once [getPackage()] has returned a package descriptor
    (a truthy value), every later [getPackage()], after any operations of
    the interface, returns that same value and changes nothing: it neither
    searches again nor writes to the Config. *)
Theorem getPackage_memoized (w w1 : World) (v : JSValue) (ops : list Op) :
  getPackage w = (Ret v, w1) →
  truthy v = true →
  getPackage (execOps ops w1) = (Ret v, execOps ops w1).
Proof.
  intros Hget Hv.
  apply getPackage_returns_pkg in Hget.
  destruct (execOps_keeps ops w1) as (_ & _ & _ & Hkeep).
  rewrite Hget in Hkeep. specialize (Hkeep Hv).
  rewrite getPackage_cached; rewrite Hkeep; done.
Qed.

(** ** The one-way flags *)

(** C5: each of [shouldRehydrate()], [shouldReload()] and
    [shouldInvalidateOnStartup()] sets its flag, and a flag that is set is
    still set after any sequence of operations of the interface. *)
Theorem flags_are_one_way (w : World) (ops : list Op) :
  (shouldRehydrate_flag (this_config (worldOf (shouldRehydrate w))) = true ∧
   shouldReload_flag (this_config (worldOf (shouldReload w))) = true ∧
   shouldInvalidateOnStartup_flag (this_config (worldOf (shouldInvalidateOnStartup w)))
     = true) ∧
  (shouldRehydrate_flag (this_config w) = true →
   shouldRehydrate_flag (this_config (execOps ops w)) = true) ∧
  (shouldReload_flag (this_config w) = true →
   shouldReload_flag (this_config (execOps ops w)) = true) ∧
  (shouldInvalidateOnStartup_flag (this_config w) = true →
   shouldInvalidateOnStartup_flag (this_config (execOps ops w)) = true).
Proof.
  split; [by repeat split|].
  destruct (execOps_keeps ops w) as (K1 & K2 & K3 & _). auto.
Qed.

(** ** What is recorded accumulates *)

Lemma Set_add_prefix (x : string) (s : JSSet) : s `prefix_of` Set_add x s.
Proof.
  unfold Set_add. destruct (decide (x ∈ s)); [done|]. by apply prefix_app_r.
Qed.

Lemma Set_add_NoDup (x : string) (s : JSSet) : NoDup s → NoDup (Set_add x s).
Proof.
  unfold Set_add. intros Hs. destruct (decide (x ∈ s)) as [Hin|Hout]; [done|].
  apply NoDup_app. split; [done|]. split; [|apply NoDup_singleton].
  intros y Hy ->%list_elem_of_singleton. done.
Qed.

Lemma Map_set_keys_prefix {V : Type} (k : string) (v : V) (m : JSMap V) :
  m.*1 `prefix_of` (Map_set k v m).*1.
Proof.
  induction m as [|[k0 v0] rest IH]; simpl; [apply prefix_nil|].
  destruct (String.eqb k0 k) eqn:E; simpl.
  - by apply String.eqb_eq in E as ->.
  - by apply prefix_cons.
Qed.

Lemma Map_set_keys_elem {V : Type} (k k' : string) (v : V) (m : JSMap V) :
  k' ∈ (Map_set k v m).*1 → k' = k ∨ k' ∈ m.*1.
Proof.
  induction m as [|[k0 v0] rest IH]; simpl.
  - intros ->%list_elem_of_singleton. by left.
  - destruct (String.eqb k0 k) eqn:E; simpl.
    + apply String.eqb_eq in E as ->. intros [->|Hin]%elem_of_cons; [by left|].
      right. by apply elem_of_cons; right.
    + intros [->|Hin]%elem_of_cons; [right; by apply elem_of_cons; left|].
      destruct (IH Hin) as [->|Hrest]; [by left|right; by apply elem_of_cons; right].
Qed.

Lemma Map_set_keys_NoDup {V : Type} (k : string) (v : V) (m : JSMap V) :
  NoDup m.*1 → NoDup (Map_set k v m).*1.
Proof.
  induction m as [|[k0 v0] rest IH]; simpl; intros Hnd.
  - apply NoDup_singleton.
  - apply NoDup_cons in Hnd as [Hout Hrest].
    destruct (String.eqb k0 k) eqn:E; simpl.
    + apply String.eqb_eq in E as ->. by apply NoDup_cons.
    + apply NoDup_cons. split; [|by apply IH].
      intros [->|Hin]%Map_set_keys_elem; [|done].
      by rewrite String.eqb_refl in E.
Qed.

Lemma grows_refl c : grows c c.
Proof. by repeat split. Qed.

Lemma grows_trans c1 c2 c3 : grows c1 c2 → grows c2 c3 → grows c1 c3.
Proof.
  intros (A1 & A2 & A3 & A4 & A5 & A6 & A7 & A8) (B1 & B2 & B3 & B4 & B5 & B6 & B7 & B8).
  repeat split; try congruence; try (by etrans); auto.
Qed.

Lemma grows_recordFound p c : grows c (recordFound p c).
Proof.
  unfold recordFound. destruct (takesResolvedPath _); simpl.
  - repeat split; simpl; auto.
  - repeat split; simpl; auto using Set_add_prefix, Set_add_NoDup.
Qed.

Lemma loadAndRecord_grows searchPath filePaths options w :
  grows (this_config w) (this_config (worldOf (loadAndRecord searchPath filePaths options w))).
Proof.
  rewrite loadAndRecord_eq.
  destruct (loadConfig _ _ _ _) as [[conf|]|e]; simpl; try apply grows_refl.
  destruct (notExcluded options); simpl; [|apply grows_refl].
  destruct (files conf); simpl; [apply grows_refl|apply grows_recordFound].
Qed.

Lemma getPackage_grows w :
  grows (this_config w) (this_config (worldOf (getPackage w))).
Proof.
  rewrite getPackage_eq.
  destruct (truthy (pkg (this_config w))); [apply grows_refl|].
  pose proof (loadAndRecord_grows (searchPath (this_config w)) ["package.json"] None w) as G.
  destruct (loadAndRecord _ _ _ w) as [[found|e] w1]; simpl in *; [|exact G].
  eapply grows_trans; [exact G|]. by repeat split.
Qed.

Lemma getConfigFrom_grows searchPath filePaths options w :
  grows (this_config w) (this_config (worldOf (getConfigFrom searchPath filePaths options w))).
Proof.
  rewrite getConfigFrom_eq.
  destruct (options ≫= packageKey) as [key|]; [|apply loadAndRecord_grows].
  pose proof (getPackage_grows w) as G.
  destruct (getPackage w) as [[pkgv|e] w1]; simpl in *; [|exact G].
  destruct (truthy pkgv && truthy (getProp pkgv key)); [exact G|].
  eapply grows_trans; [exact G|apply loadAndRecord_grows].
Qed.

Lemma execOp_grows op w : grows (this_config w) (this_config (execOp op w)).
Proof.
  destruct op; simpl;
    try apply grows_refl;
    try apply getConfigFrom_grows;
    try apply getPackage_grows;
    try (by repeat split; auto).
  - repeat split; simpl; auto using Set_add_prefix, Set_add_NoDup.
  - repeat split; simpl; auto using Map_set_keys_prefix, Map_set_keys_NoDup.
Qed.

Lemma execOps_grows ops w : grows (this_config w) (this_config (execOps ops w)).
Proof.
  revert w. induction ops as [|op ops IH]; intros w; simpl.
  - apply grows_refl.
  - eapply grows_trans; [apply execOp_grows|apply IH].
Qed.

(** X1: no operation of the interface, and no sequence of them, changes
    [searchPath], [env] or [isSource]: a wrapper cannot move its Config to
    another place or change what it is. *)
Theorem searchPath_env_isSource_are_fixed (w : World) (ops : list Op) :
  searchPath (this_config (execOps ops w)) = searchPath (this_config w) ∧
  env (this_config (execOps ops w)) = env (this_config w) ∧
  isSource (this_config (execOps ops w)) = isSource (this_config w).
Proof. destruct (execOps_grows ops w) as (G1 & G2 & G3 & _). done. Qed.

(** X2: what has been recorded is never removed or reordered: after any
    sequence of operations the included files start with the files that
    were included before, in the same order, and so do the names of the
    dev dependencies. *)
Theorem recorded_files_and_devDeps_accumulate (w : World) (ops : list Op) :
  includedFiles (this_config w) `prefix_of` includedFiles (this_config (execOps ops w)) ∧
  (devDeps (this_config w)).*1 `prefix_of` (devDeps (this_config (execOps ops w))).*1.
Proof. destruct (execOps_grows ops w) as (_ & _ & _ & G4 & G5 & _). done. Qed.

(** X3: a Config that has a [resolvedPath] still has one after any sequence
    of operations: no method assigns [null] to it. *)
Theorem resolvedPath_is_never_unset (w : World) (ops : list Op) :
  is_Some (resolvedPath (this_config w)) →
  is_Some (resolvedPath (this_config (execOps ops w))).
Proof. destruct (execOps_grows ops w) as (_ & _ & _ & _ & _ & G6 & _). done. Qed.

(** The included files and the names of the dev dependencies stay free
    of duplicates, whatever is added and however often. *)
Theorem collections_stay_duplicate_free (w : World) (ops : list Op) :
  NoDup (includedFiles (this_config w)) →
  NoDup (devDeps (this_config w)).*1 →
  NoDup (includedFiles (this_config (execOps ops w))) ∧
  NoDup (devDeps (this_config (execOps ops w))).*1.
Proof.
  destruct (execOps_grows ops w) as (_ & _ & _ & _ & _ & _ & G7 & G8). auto.
Qed.

(** ** What the resolving methods leave alone *)

Lemma resolvingFrame_refl c : resolvingFrame c c.
Proof. by repeat split. Qed.

Lemma resolvingFrame_trans c1 c2 c3 :
  resolvingFrame c1 c2 → resolvingFrame c2 c3 → resolvingFrame c1 c3.
Proof.
  intros (A1 & A2 & A3 & A4 & A5 & A6 & A7 & A8 & A9 & A10)
         (B1 & B2 & B3 & B4 & B5 & B6 & B7 & B8 & B9 & B10).
  repeat split; congruence.
Qed.

Lemma loadAndRecord_frame searchPath filePaths options w :
  resolvingFrame (this_config w)
    (this_config (worldOf (loadAndRecord searchPath filePaths options w))).
Proof.
  rewrite loadAndRecord_eq.
  destruct (loadConfig _ _ _ _) as [[conf|]|e]; simpl; try apply resolvingFrame_refl.
  destruct (notExcluded options); simpl; [|apply resolvingFrame_refl].
  destruct (files conf); simpl; [apply resolvingFrame_refl|].
  unfold recordFound. by destruct (takesResolvedPath _).
Qed.

Lemma getPackage_frame w :
  resolvingFrame (this_config w) (this_config (worldOf (getPackage w))).
Proof.
  rewrite getPackage_eq.
  destruct (truthy (pkg (this_config w))); [apply resolvingFrame_refl|].
  pose proof (loadAndRecord_frame (searchPath (this_config w)) ["package.json"] None w) as F.
  destruct (loadAndRecord _ _ _ w) as [[found|e] w1]; simpl in *; [|exact F].
  eapply resolvingFrame_trans; [exact F|]. by repeat split.
Qed.

Lemma getConfigFrom_frame searchPath filePaths options w :
  resolvingFrame (this_config w)
    (this_config (worldOf (getConfigFrom searchPath filePaths options w))).
Proof.
  rewrite getConfigFrom_eq.
  destruct (options ≫= packageKey) as [key|]; [|apply loadAndRecord_frame].
  pose proof (getPackage_frame w) as F.
  destruct (getPackage w) as [[pkgv|e] w1]; simpl in *; [|exact F].
  destruct (truthy pkgv && truthy (getProp pkgv key)); [exact F|].
  eapply resolvingFrame_trans; [exact F|apply loadAndRecord_frame].
Qed.

(** X4: [getConfigFrom], [getConfig] and [getPackage] write to
    [resolvedPath], [includedFiles] and [pkg] only: the result, its hash,
    the dev dependencies, the watch glob and the three flags are as they
    were, whatever was found and whether or not the call threw. *)
Theorem resolving_methods_touch_only_their_bookkeeping (w : World)
    (root : FilePath) (filePaths : list FilePath) (options : option ConfigOptions) :
  resolvingFrame (this_config w)
    (this_config (worldOf (getConfigFrom root filePaths options w))) ∧
  resolvingFrame (this_config w)
    (this_config (worldOf (getConfig filePaths options w))) ∧
  resolvingFrame (this_config w) (this_config (worldOf (getPackage w))).
Proof.
  split; [apply getConfigFrom_frame|]. split; [|apply getPackage_frame].
  apply (getConfigFrom_frame (searchPath (this_config w))).
Qed.

(** ** A resolved path that is not a package descriptor's *)

Lemma loadAndRecord_resolvedPath searchPath filePaths options w :
  takesResolvedPath (resolvedPath (this_config w)) = false →
  resolvedPath (this_config (worldOf (loadAndRecord searchPath filePaths options w)))
  = resolvedPath (this_config w).
Proof.
  intros Htakes. rewrite loadAndRecord_eq.
  destruct (loadConfig _ _ _ _) as [[conf|]|e]; simpl; try reflexivity.
  destruct (notExcluded options); simpl; [|reflexivity].
  destruct (files conf); simpl; [reflexivity|].
  unfold recordFound. by rewrite Htakes.
Qed.

Lemma getPackage_resolvedPath w :
  takesResolvedPath (resolvedPath (this_config w)) = false →
  resolvedPath (this_config (worldOf (getPackage w))) = resolvedPath (this_config w).
Proof.
  intros Htakes. rewrite getPackage_eq.
  destruct (truthy (pkg (this_config w))); [reflexivity|].
  pose proof (loadAndRecord_resolvedPath (searchPath (this_config w)) ["package.json"]
                None w Htakes) as R.
  by destruct (loadAndRecord _ _ _ w) as [[found|e] w1].
Qed.

Lemma getConfigFrom_resolvedPath searchPath filePaths options w :
  takesResolvedPath (resolvedPath (this_config w)) = false →
  resolvedPath (this_config (worldOf (getConfigFrom searchPath filePaths options w)))
  = resolvedPath (this_config w).
Proof.
  intros Htakes. rewrite getConfigFrom_eq.
  destruct (options ≫= packageKey) as [key|]; [|by apply loadAndRecord_resolvedPath].
  pose proof (getPackage_resolvedPath w Htakes) as R.
  destruct (getPackage w) as [[pkgv|e] w1]; simpl in *; [|exact R].
  destruct (truthy pkgv && truthy (getProp pkgv key)); [exact R|].
  rewrite loadAndRecord_resolvedPath; [exact R|]. by rewrite R.
Qed.

Lemma execOp_resolvedPath op w :
  takesResolvedPath (resolvedPath (this_config w)) = false →
  assignsResolvedPath op = false →
  resolvedPath (this_config (execOp op w)) = resolvedPath (this_config w).
Proof.
  intros Htakes Hop. destruct op; simpl in *; try reflexivity; try discriminate.
  - by apply getConfigFrom_resolvedPath.
  - by apply (getConfigFrom_resolvedPath (searchPath (this_config w))).
  - by apply getPackage_resolvedPath.
Qed.

(** X5: once [resolvedPath] holds a path that does not end in
    [package.json], searching never replaces it: after any sequence of
    operations other than [setResolvedPath] it is still that path. *)
Theorem resolvedPath_is_kept_by_searches (w : World) (ops : list Op) :
  takesResolvedPath (resolvedPath (this_config w)) = false →
  forallb (λ op, negb (assignsResolvedPath op)) ops = true →
  resolvedPath (this_config (execOps ops w)) = resolvedPath (this_config w).
Proof.
  revert w. induction ops as [|op ops IH]; intros w Htakes Hops; simpl in *; [done|].
  apply andb_true_iff in Hops as [Hop Hops]. apply negb_true_iff in Hop.
  pose proof (execOp_resolvedPath op w Htakes Hop) as Hstep.
  rewrite IH; [exact Hstep| by rewrite Hstep |exact Hops].
Qed.

(** ** Excluded, failed and repeated searches *)

(** X6: with [exclude] set, a file that is found is returned but not
    recorded: the search leaves no trace on the Config, which is as it was
    when the search started. *)
Theorem excluded_file_is_not_recorded (w : World) (root : FilePath)
    (filePaths : list FilePath) (options : option ConfigOptions)
    (conf : LoadedConfig) :
  searchesCandidates options w = true →
  notExcluded options = false →
  loadConfig (inputFS this_options) root filePaths (loadOptionsFor options)
    = Ret (Some conf) →
  getConfigFrom root filePaths options w
  = (Ret (config conf), logged root filePaths options (afterPackageLookup options w)).
Proof.
  intros Hsearch Hexcl Hload.
  unfold searchesCandidates, afterPackageLookup in *.
  rewrite getConfigFrom_eq.
  assert (∀ w', loadAndRecord root filePaths options w'
           = (Ret (config conf), logged root filePaths options w')) as Hrec.
  { intros w'. by rewrite loadAndRecord_eq, Hload, Hexcl. }
  destruct (options ≫= packageKey) as [key|]; [|apply Hrec].
  unfold outcomeOf, worldOf in *.
  destruct (getPackage w) as [[pkgv|e] w1]; simpl in *; [|done].
  apply negb_true_iff in Hsearch. by rewrite Hsearch.
Qed.


(** X8: when the search for [package.json] rejects, [getPackage()] rejects
    with that error and assigns nothing, and a call with a [packageKey]
    rejects in the same way without searching for its candidates. *)
Theorem failed_package_lookup_is_propagated (w : World) (root : FilePath)
    (filePaths : list FilePath) (options : option ConfigOptions)
    (key : string) (e : Exn) :
  truthy (pkg (this_config w)) = false →
  loadConfig (inputFS this_options) (searchPath (this_config w)) ["package.json"] None
    = Throw e →
  options ≫= packageKey = Some key →
  getPackage w
  = (Throw e, logged (searchPath (this_config w)) ["package.json"] None w) ∧
  getConfigFrom root filePaths options w
  = (Throw e, logged (searchPath (this_config w)) ["package.json"] None w).
Proof.
  intros Hpkg Hload Hkey.
  assert (getPackage w
          = (Throw e, logged (searchPath (this_config w)) ["package.json"] None w)) as Hget.
  { rewrite getPackage_eq, Hpkg, loadAndRecord_eq.
    change (loadOptionsFor None) with (@None LoadOptions). by rewrite Hload. }
  split; [exact Hget|]. by rewrite getConfigFrom_eq, Hkey, Hget.
Qed.

(** X9: when no [package.json] is found, [getPackage()] returns [null],
    stores [null] as the package and records no file. *)
Theorem getPackage_without_descriptor (w : World) :
  truthy (pkg (this_config w)) = false →
  loadConfig (inputFS this_options) (searchPath (this_config w)) ["package.json"] None
    = Ret None →
  getPackage w
  = (Ret JNull,
     mkWorld (with_pkg JNull (this_config w))
       (loads w ++ [mkLoadCall (searchPath (this_config w)) ["package.json"] None])).
Proof.
  intros Hpkg Hload. rewrite getPackage_eq, Hpkg, loadAndRecord_eq.
  change (loadOptionsFor None) with (@None LoadOptions). by rewrite Hload.
Qed.

(** X10: the first [getPackage()] that finds a [package.json] returns its
    content, caches it, and records its path like that of any other found
    file: as [resolvedPath] when there is none yet or only that of a
    package descriptor, among the included files otherwise. *)
Theorem getPackage_with_descriptor (w : World) (conf : LoadedConfig)
    (f : ConfigFile) (rest : list ConfigFile) :
  truthy (pkg (this_config w)) = false →
  loadConfig (inputFS this_options) (searchPath (this_config w)) ["package.json"] None
    = Ret (Some conf) →
  files conf = f :: rest →
  let primary := takesResolvedPath (resolvedPath (this_config w)) in
  let after := this_config (worldOf (getPackage w)) in
  outcomeOf (getPackage w) = Ret (config conf) ∧
  pkg after = config conf ∧
  resolvedPath after
    = (if primary then Some (filePath f) else resolvedPath (this_config w)) ∧
  includedFiles after
    = (if primary then includedFiles (this_config w)
       else Set_add (filePath f) (includedFiles (this_config w))) ∧
  loads (worldOf (getPackage w))
    = loads w ++ [mkLoadCall (searchPath (this_config w)) ["package.json"] None].
Proof.
  intros Hpkg Hload Hfiles. simpl.
  rewrite getPackage_eq, Hpkg, loadAndRecord_eq.
  change (loadOptionsFor None) with (@None LoadOptions).
  rewrite Hload, Hfiles. simpl. unfold recordFound.
  by destruct (takesResolvedPath (resolvedPath (this_config w))).
Qed.

(** X11: [getConfig] is not idempotent on a fresh Config.  The first call
    that finds a file (not named [package.json]) makes it the
    [resolvedPath]; a second, identical call adds the same path to the
    included files; from then on repeating the call changes nothing. *)
Theorem getConfig_repeated (w : World) (filePaths : list FilePath)
    (options : option ConfigOptions) (conf : LoadedConfig)
    (f : ConfigFile) (rest : list ConfigFile) :
  resolvedPath (this_config w) = None →
  options ≫= packageKey = None →
  notExcluded options = true →
  loadConfig (inputFS this_options) (searchPath (this_config w)) filePaths
    (loadOptionsFor options) = Ret (Some conf) →
  files conf = f :: rest →
  endsWith (filePath f) "package.json" = false →
  let once := worldOf (getConfig filePaths options w) in
  let twice := worldOf (getConfig filePaths options once) in
  let thrice := worldOf (getConfig filePaths options twice) in
  this_config once = with_resolvedPath (Some (filePath f)) (this_config w) ∧
  this_config twice
  = with_includedFiles (Set_add (filePath f) (includedFiles (this_config w)))
      (this_config once) ∧
  this_config thrice = this_config twice.
Proof.
  intros Hnone Hkey Hexcl Hload Hfiles Hname once twice thrice.
  assert (∀ w', searchPath (this_config w') = searchPath (this_config w) →
            worldOf (getConfig filePaths options w')
            = mkWorld (recordFound (filePath f) (this_config w'))
                (loads (logged (searchPath (this_config w)) filePaths options w')))
    as Hcall.
  { intros w' Hsp.
    change (getConfig filePaths options w')
      with (getConfigFrom (searchPath (this_config w')) filePaths options w').
    by rewrite getConfigFrom_eq, Hkey, loadAndRecord_eq, Hsp, Hload, Hexcl, Hfiles. }
  assert (this_config once = with_resolvedPath (Some (filePath f)) (this_config w)) as H1.
  { unfold once. rewrite (Hcall w eq_refl). cbn [this_config].
    unfold recordFound. by rewrite Hnone. }
  assert (this_config twice
          = with_includedFiles (Set_add (filePath f) (includedFiles (this_config w)))
              (this_config once)) as H2.
  { unfold twice. rewrite (Hcall once) by (by rewrite H1). cbn [this_config].
    unfold recordFound. rewrite H1. cbn [resolvedPath with_resolvedPath takesResolvedPath].
    by rewrite Hname. }
  split; [exact H1|]. split; [exact H2|].
  unfold thrice. rewrite (Hcall twice) by (by rewrite H2, H1). cbn [this_config].
  unfold recordFound. rewrite H2, H1.
  cbn [resolvedPath includedFiles with_resolvedPath with_includedFiles takesResolvedPath].
  rewrite Hname. unfold with_includedFiles; cbn. by rewrite Set_add_idem.
Qed.

(** X12: the order of the lookups matters.  On a fresh Config, looking up
    the package first and a config file second records the config file
    only: the path of the package descriptor is displaced from
    [resolvedPath] and kept nowhere.  In the other order both are
    recorded, the package descriptor among the included files. *)
Theorem lookup_order_matters (w : World) (filePaths : list FilePath)
    (pconf cconf : LoadedConfig) (pf cf : ConfigFile) (prest crest : list ConfigFile) :
  resolvedPath (this_config w) = None →
  truthy (pkg (this_config w)) = false →
  loadConfig (inputFS this_options) (searchPath (this_config w)) ["package.json"] None
    = Ret (Some pconf) →
  files pconf = pf :: prest →
  endsWith (filePath pf) "package.json" = true →
  loadConfig (inputFS this_options) (searchPath (this_config w)) filePaths None
    = Ret (Some cconf) →
  files cconf = cf :: crest →
  endsWith (filePath cf) "package.json" = false →
  let packageFirst := this_config (worldOf (getConfig filePaths None (worldOf (getPackage w)))) in
  let packageLast := this_config (worldOf (getPackage (worldOf (getConfig filePaths None w)))) in
  resolvedPath packageFirst = Some (filePath cf) ∧
  includedFiles packageFirst = includedFiles (this_config w) ∧
  resolvedPath packageLast = Some (filePath cf) ∧
  includedFiles packageLast = Set_add (filePath pf) (includedFiles (this_config w)).
Proof.
  intros Hnone Hpkg Hpload Hpfiles Hpname Hcload Hcfiles Hcname packageFirst packageLast.
  assert (∀ w', searchPath (this_config w') = searchPath (this_config w) →
            this_config (worldOf (getConfig filePaths None w'))
            = recordFound (filePath cf) (this_config w')) as Hcall.
  { intros w' Hsp.
    change (getConfig filePaths None w')
      with (getConfigFrom (searchPath (this_config w')) filePaths None w').
    rewrite getConfigFrom_eq. cbn [mbind option_bind]. rewrite loadAndRecord_eq, Hsp.
    change (loadOptionsFor None) with (@None LoadOptions).
    by rewrite Hcload, Hcfiles. }
  assert (∀ w', searchPath (this_config w') = searchPath (this_config w) →
            truthy (pkg (this_config w')) = false →
            this_config (worldOf (getPackage w'))
            = with_pkg (config pconf) (recordFound (filePath pf) (this_config w')))
    as Hlookup.
  { intros w' Hsp Hfalsy. rewrite getPackage_eq, Hfalsy, loadAndRecord_eq, Hsp.
    change (loadOptionsFor None) with (@None LoadOptions).
    by rewrite Hpload, Hpfiles. }
  assert (packageFirst
          = recordFound (filePath cf)
              (with_pkg (config pconf) (recordFound (filePath pf) (this_config w)))) as HF.
  { unfold packageFirst. rewrite Hcall; rewrite (Hlookup w eq_refl Hpkg); [done|].
    unfold recordFound. by destruct (takesResolvedPath _). }
  assert (packageLast
          = with_pkg (config pconf)
              (recordFound (filePath pf) (recordFound (filePath cf) (this_config w)))) as HL.
  { unfold packageLast. rewrite Hlookup; rewrite (Hcall w eq_refl); [done| |].
    - unfold recordFound. by destruct (takesResolvedPath _).
    - unfold recordFound. by destruct (takesResolvedPath _). }
  rewrite HF, HL. unfold recordFound. rewrite Hnone. cbn.
  rewrite Hpname. cbn. rewrite Hcname. done.
Qed.

(** ** The JSX options *)

Lemma getJSXOptions_eq options w :
  getJSXOptions options w =
  if isSource (this_config w) then
    match getPackage w with
    | (Ret pkg, w1) => jsxFromPackage options pkg w1
    | (Throw e, w1) => (Throw e, w1)
    end
  else (Ret JNull, w).
Proof.
  unfold getJSXOptions, get_isSource.
  cbv [mbind Eff_bind mret Eff_ret getThisConfig].
  destruct (isSource (this_config w)); cbn [negb]; [|reflexivity].
  by destruct (getPackage w) as [[pkgv|e] w1].
Qed.

Lemma Array_find_first (callback : string → JSValue) (before after : list string)
    (x : string) :
  Forall (λ y, truthy (callback y) = false) before →
  truthy (callback x) = true →
  Array_find callback (before ++ x :: after) = Some x.
Proof.
  induction 1 as [|y before Hy _ IH]; intros Hx; simpl.
  - by rewrite Hx.
  - rewrite Hy. by apply IH.
Qed.

Lemma Array_find_none (callback : string → JSValue) (l : list string) :
  Forall (λ y, truthy (callback y) = false) l → Array_find callback l = None.
Proof. induction 1 as [|y l Hy _ IH]; simpl; [done|]. by rewrite Hy. Qed.

(** The tail of [getJSXOptions] once the library is known. *)
Lemma jsxFromPackage_library options pkgv w name entry pragma pragmaFrag :
  (if truthy (andProp (optionalProp pkgv "alias") "react") then Some "react"
   else Array_find (dependsOn pkgv) (Object_keys JSX_PRAGMA)) = Some name →
  getOwnProperty JSX_PRAGMA name = Some (JObject entry) →
  assoc "pragma" entry = Some pragma →
  assoc "pragmaFrag" entry = Some pragmaFrag →
  truthy pragma = true →
  name ≠ "" →
  jsxFromPackage options pkgv w
  = (Ret (jsxPresets pragma pragmaFrag (String.eqb (mode options) "development")), w).
Proof.
  intros Hlib Hentry Hpragma Hfrag Htruthy Hname.
  assert (member JSX_PRAGMA name = mret (JObject entry)) as Hmember.
  { change (member JSX_PRAGMA name) with (mret (getProp JSX_PRAGMA name) : Eff JSValue).
    unfold getProp. by rewrite Hentry. }
  assert (∀ k x, assoc k entry = Some x → member (JObject entry) k = mret x) as Hfield.
  { intros k x Hk. unfold member, getProp. cbn [getOwnProperty]. by rewrite Hk. }
  unfold jsxFromPackage. rewrite Hlib. unfold isLibrary.
  assert (String.eqb name "" = false) as -> by (by apply String.eqb_neq).
  cbn [negb]. rewrite Hmember.
  cbv [mbind Eff_bind mret Eff_ret get_searchPath getThisConfig].
  rewrite (Hfield _ _ Hpragma), (Hfield _ _ Hfrag).
  cbv [mret Eff_ret]. by rewrite Htruthy.
Qed.

Lemma jsxFromPackage_no_library options pkgv w :
  truthy (andProp (optionalProp pkgv "alias") "react") = false →
  Forall (λ name, truthy (dependsOn pkgv name) = false) (Object_keys JSX_PRAGMA) →
  jsxFromPackage options pkgv w
  = (Ret (if truthy (getProp JSX_EXTENSIONS (extname (searchPath (this_config w))))
          then jsxPresets JUndefined JUndefined (String.eqb (mode options) "development")
          else JUndefined), w).
Proof.
  intros Halias Hnone. unfold jsxFromPackage.
  rewrite Halias, (Array_find_none _ _ Hnone).
  unfold mbind, Eff_bind, mret, Eff_ret, get_searchPath, getThisConfig. simpl.
  by destruct (truthy (getProp JSX_EXTENSIONS _)).
Qed.

Lemma jsxFromPackage_returns options pkgv w :
  ∃ v, jsxFromPackage options pkgv w = (Ret v, w).
Proof.
  unfold jsxFromPackage.
  change (Object_keys JSX_PRAGMA) with ["react"; "preact"; "nervjs"; "hyperapp"].
  destruct (truthy (andProp (optionalProp pkgv "alias") "react"));
    [|simpl; repeat (destruct (truthy (dependsOn pkgv _)))];
    unfold mbind, Eff_bind, mret, Eff_ret, get_searchPath, getThisConfig; simpl;
    repeat (match goal with |- context [if ?b then _ else _] => destruct b end);
    simpl; eauto.
Qed.

(** X15: for an asset that is not source code [getJSXOptions] returns
    [null] at once: the package descriptor is not looked up and nothing is
    recorded on the Config. *)
Theorem getJSXOptions_not_source (w : World) (options : PluginOptions) :
  isSource (this_config w) = false →
  getJSXOptions options w = (Ret JNull, w).
Proof. intros H. by rewrite getJSXOptions_eq, H. Qed.

(** X16: an alias for [react] in the package descriptor decides: the pragma
    is React's, whatever the dependencies list, and [development] tells
    whether the mode is ['development']. *)
Theorem getJSXOptions_alias_react (w w1 : World) (options : PluginOptions)
    (pkgv : JSValue) (aliases : list (string * JSValue)) (target : JSValue) :
  isSource (this_config w) = true →
  getPackage w = (Ret pkgv, w1) →
  getOwnProperty pkgv "alias" = Some (JObject aliases) →
  assoc "react" aliases = Some target →
  truthy target = true →
  getJSXOptions options w
  = (Ret (jsxPresets (JString "React.createElement") (JString "React.Fragment")
            (String.eqb (mode options) "development")), w1).
Proof.
  intros Hsource Hpkg Halias Hreact Htarget.
  rewrite getJSXOptions_eq, Hsource, Hpkg.
  apply (jsxFromPackage_library options pkgv w1 "react"
           [("pragma", JString "React.createElement");
            ("pragmaFrag", JString "React.Fragment")]); try done.
  assert (optionalProp pkgv "alias" = JObject aliases) as ->.
  { destruct pkgv; try discriminate. unfold optionalProp, getProp. by rewrite Halias. }
  unfold andProp, getProp. simpl. by rewrite Hreact, Htarget.
Qed.

(** X17: without an alias for [react], the library is the first of
    [react], [preact], [nervjs] and [hyperapp] that the dependencies or the
    dev dependencies of the package list, and the pragma and the fragment
    pragma are the ones the table gives for it. *)
Theorem getJSXOptions_first_listed_library (w w1 : World) (options : PluginOptions)
    (pkgv : JSValue) (before after : list string) (name : string) :
  isSource (this_config w) = true →
  getPackage w = (Ret pkgv, w1) →
  truthy (andProp (optionalProp pkgv "alias") "react") = false →
  ["react"; "preact"; "nervjs"; "hyperapp"] = before ++ name :: after →
  Forall (λ earlier, truthy (dependsOn pkgv earlier) = false) before →
  truthy (dependsOn pkgv name) = true →
  ∃ entry pragma pragmaFrag,
    getOwnProperty JSX_PRAGMA name = Some (JObject entry) ∧
    assoc "pragma" entry = Some pragma ∧
    assoc "pragmaFrag" entry = Some pragmaFrag ∧
    getJSXOptions options w
    = (Ret (jsxPresets pragma pragmaFrag (String.eqb (mode options) "development")), w1).
Proof.
  intros Hsource Hpkg Halias Hsplit Hbefore Hname.
  rewrite getJSXOptions_eq, Hsource, Hpkg.
  assert ((if truthy (andProp (optionalProp pkgv "alias") "react") then Some "react"
           else Array_find (dependsOn pkgv) (Object_keys JSX_PRAGMA)) = Some name) as Hlib.
  { rewrite Halias. change (Object_keys JSX_PRAGMA)
      with ["react"; "preact"; "nervjs"; "hyperapp"].
    rewrite Hsplit. by apply Array_find_first. }
  assert (name ∈ ["react"; "preact"; "nervjs"; "hyperapp"]) as Hin.
  { rewrite Hsplit. apply elem_of_app. right. by apply elem_of_cons; left. }
  repeat (apply elem_of_cons in Hin as [->|Hin]);
    [..|by apply elem_of_nil in Hin];
    do 3 eexists; (split; [reflexivity|]); (split; [reflexivity|]);
    (split; [reflexivity|]);
    by eapply jsxFromPackage_library.
Qed.

(** X18: when the package descriptor gives no library (no alias for
    [react], none of the four libraries listed), and in particular when
    there is no package descriptor, the extension of the search path
    decides: a configuration with undefined pragmas for [.jsx] and [.tsx],
    [undefined] when the extension is not in the table. *)
Theorem getJSXOptions_no_library (w w1 : World) (options : PluginOptions)
    (pkgv : JSValue) :
  isSource (this_config w) = true →
  getPackage w = (Ret pkgv, w1) →
  pkgv = JNull ∨
  (truthy (andProp (optionalProp pkgv "alias") "react") = false ∧
   Forall (λ name, truthy (dependsOn pkgv name) = false)
     ["react"; "preact"; "nervjs"; "hyperapp"]) →
  getJSXOptions options w
  = (Ret (if truthy (getProp JSX_EXTENSIONS (extname (searchPath (this_config w))))
          then jsxPresets JUndefined JUndefined (String.eqb (mode options) "development")
          else JUndefined), w1) ∧
  (extname (searchPath (this_config w)) = ".jsx" ∨
   extname (searchPath (this_config w)) = ".tsx" →
   getJSXOptions options w
   = (Ret (jsxPresets JUndefined JUndefined (String.eqb (mode options) "development")),
      w1)).
Proof.
  intros Hsource Hpkg Hnone.
  assert (searchPath (this_config w1) = searchPath (this_config w)) as Hsp.
  { pose proof (getPackage_grows w) as (G & _). by rewrite Hpkg in G. }
  assert (getJSXOptions options w
          = (Ret (if truthy (getProp JSX_EXTENSIONS (extname (searchPath (this_config w))))
                  then jsxPresets JUndefined JUndefined
                         (String.eqb (mode options) "development")
                  else JUndefined), w1)) as Hres.
  { rewrite getJSXOptions_eq, Hsource, Hpkg, <- Hsp.
    apply jsxFromPackage_no_library.
    - destruct Hnone as [->|[H _]]; [reflexivity|exact H].
    - destruct Hnone as [->|[_ H]]; [by repeat constructor|exact H]. }
  split; [exact Hres|]. intros Hext. rewrite Hres.
  by destruct Hext as [-> | ->].
Qed.

(** X19: on source code, [getJSXOptions] has the effects of its
    [getPackage()] call and no other, it throws what that call throws, and
    it throws nothing of its own: reading the table never fails. *)
Theorem getJSXOptions_effects (w : World) (options : PluginOptions) :
  isSource (this_config w) = true →
  worldOf (getJSXOptions options w) = worldOf (getPackage w) ∧
  match outcomeOf (getPackage w) with
  | Throw e => outcomeOf (getJSXOptions options w) = Throw e
  | Ret _ => ∃ v, outcomeOf (getJSXOptions options w) = Ret v
  end.
Proof.
  intros Hsource. rewrite getJSXOptions_eq, Hsource.
  destruct (getPackage w) as [[pkgv|e] w1]; simpl; [|done].
  destruct (jsxFromPackage_returns options pkgv w1) as [v ->]. eauto.
Qed.

(** X20: once a package descriptor has been found, asking for the JSX
    options again gives the same answer without another search: the second
    call changes nothing. *)
Theorem getJSXOptions_again (w w1 : World) (options : PluginOptions) (pkgv : JSValue) :
  isSource (this_config w) = true →
  getPackage w = (Ret pkgv, w1) →
  truthy pkgv = true →
  getJSXOptions options w1 = (outcomeOf (getJSXOptions options w), w1).
Proof.
  intros Hsource Hpkg Htruthy.
  pose proof (getPackage_returns_pkg _ _ _ Hpkg) as Hstored.
  pose proof (getPackage_grows w) as (_ & _ & Hsrc & _). rewrite Hpkg in Hsrc.
  simpl in Hsrc.
  destruct (jsxFromPackage_returns options pkgv w1) as [v Hv].
  rewrite !getJSXOptions_eq, Hsrc, Hsource, Hpkg.
  rewrite getPackage_cached by (by rewrite Hstored). rewrite Hstored.
  by rewrite Hv.
Qed.

End PublicConfig.

(** ** One wrapper per Config and options *)

Lemma new_PublicConfig_hit (config options r : Ref) (h : Heap) :
  lookupWrapper config options h = Some r →
  new_PublicConfig config options h
  = (r, mkHeap (S (nextRef h))
          (<[nextRef h := mkPublicConfigObject None None]> (wrappers h))
          (internalConfigToConfig h)).
Proof.
  unfold lookupWrapper, new_PublicConfig, DefaultWeakMap_get.
  destruct (internalConfigToConfig h !! options) as [inner|] eqn:Hinner; simpl; [|done].
  by intros ->.
Qed.

Lemma new_PublicConfig_registers (config options : Ref) (h : Heap) :
  lookupWrapper config options (new_PublicConfig config options h).2
  = Some (new_PublicConfig config options h).1.
Proof.
  unfold lookupWrapper, new_PublicConfig, DefaultWeakMap_get.
  destruct (internalConfigToConfig h !! options) as [inner|] eqn:Hinner; simpl.
  - destruct (inner !! config) as [existing|] eqn:Hhit; simpl.
    + by rewrite Hinner; simpl.
    + rewrite Hinner; simpl. by rewrite !lookup_insert_eq; simpl; rewrite lookup_insert_eq.
  - rewrite lookup_empty, lookup_insert_eq; simpl.
    by rewrite !lookup_insert_eq; simpl; rewrite lookup_insert_eq.
Qed.

Lemma new_PublicConfig_preserves (config options config' options' r : Ref) (h : Heap) :
  lookupWrapper config options h = Some r →
  lookupWrapper config options (new_PublicConfig config' options' h).2 = Some r.
Proof.
  unfold lookupWrapper, new_PublicConfig, DefaultWeakMap_get. intros Hhave.
  destruct (internalConfigToConfig h !! options') as [inner|] eqn:Hinner; simpl.
  - destruct (inner !! config') as [existing|] eqn:Hhit; simpl; [done|].
    rewrite Hinner; simpl.
    destruct (decide (options' = options)) as [->|Hne].
    + rewrite lookup_insert_eq; simpl. rewrite Hinner in Hhave; simpl in Hhave.
      destruct (decide (config' = config)) as [->|Hne']; [congruence|].
      by rewrite lookup_insert_ne.
    + by rewrite lookup_insert_ne.
  - rewrite lookup_empty, lookup_insert_eq; simpl.
    destruct (decide (options' = options)) as [->|Hne].
    + by rewrite Hinner in Hhave.
    + by rewrite !lookup_insert_ne.
Qed.

Lemma constructAll_preserves (config options r : Ref) (pairs : list (Ref * Ref)) (h : Heap) :
  lookupWrapper config options h = Some r →
  lookupWrapper config options (constructAll pairs h) = Some r.
Proof.
  revert h. induction pairs as [|[c o] rest IH]; intros h Hhave; simpl; [done|].
  by apply IH, new_PublicConfig_preserves.
Qed.

(** ** The statements at work on the samples *)

Lemma getConfigFrom_packageKey_shortcut_witness :
  Sample.keyFoo ≫= packageKey = Some "foo" ∧
  getPackage Sample.noBuiltins (Sample.loadFrom [("package.json", Sample.pkgFoo)])
    Sample.options Sample.start
  = (Ret Sample.pkgFoo,
     mkWorld (with_pkg Sample.pkgFoo
                (with_resolvedPath (Some "/app/package.json") Sample.emptyConfig))
       [Sample.packageSearch]) ∧
  getConfig Sample.noBuiltins (Sample.loadFrom [("package.json", Sample.pkgFoo)])
    Sample.options ["some.config.js"] Sample.keyFoo Sample.start
  = (Ret (JObject [("x", JNumber 1)]),
     mkWorld (with_pkg Sample.pkgFoo
                (with_resolvedPath (Some "/app/package.json") Sample.emptyConfig))
       [Sample.packageSearch]).
Proof.
  split; [reflexivity|]. split; [reflexivity|].
  apply (getConfigFrom_packageKey_shortcut Sample.noBuiltins
           (Sample.loadFrom [("package.json", Sample.pkgFoo)]) Sample.options
           Sample.start _ "/elsewhere/file.js" ["some.config.js"] Sample.keyFoo
           "foo" Sample.pkgFoo (JObject [("x", JNumber 1)]));
    reflexivity.
Defined.

(** C1 as stated fails: with the package descriptor [{"foo": false}] the key
    is there, yet [getConfig(["some.config.js"], {packageKey: "foo"})] goes
    on to search for the candidate and returns its content, not [false]. *)
Lemma packageKey_with_falsy_value_is_searched :
  outcomeOf (getPackage Sample.noBuiltins
               (Sample.loadFrom [("package.json", Sample.pkgFooFalse);
                                 ("some.config.js", Sample.someConfig)])
               Sample.options Sample.start)
  = Ret Sample.pkgFooFalse ∧
  getOwnProperty Sample.pkgFooFalse "foo" = Some (JBool false) ∧
  outcomeOf (getConfig Sample.noBuiltins
               (Sample.loadFrom [("package.json", Sample.pkgFooFalse);
                                 ("some.config.js", Sample.someConfig)])
               Sample.options ["some.config.js"] Sample.keyFoo Sample.start)
  = Ret Sample.someConfig ∧
  outcomeOf (getConfig Sample.noBuiltins
               (Sample.loadFrom [("package.json", Sample.pkgFooFalse);
                                 ("some.config.js", Sample.someConfig)])
               Sample.options ["some.config.js"] Sample.keyFoo Sample.start)
  ≠ Ret (JBool false) ∧
  loads (worldOf (getConfig Sample.noBuiltins
                    (Sample.loadFrom [("package.json", Sample.pkgFooFalse);
                                      ("some.config.js", Sample.someConfig)])
                    Sample.options ["some.config.js"] Sample.keyFoo Sample.start))
  = [Sample.packageSearch; Sample.candidateSearch].
Proof. repeat split; try reflexivity. discriminate. Qed.

Lemma getConfigFrom_records_found_file_witness :
  searchesCandidates Sample.noBuiltins
    (Sample.loadFrom [("package.json", Sample.pkgBar);
                      ("some.config.js", Sample.someConfig)])
    Sample.options Sample.keyFoo Sample.start = true ∧
  notExcluded Sample.keyFoo = true ∧
  resolvedPath
    (this_config
       (afterPackageLookup Sample.noBuiltins
          (Sample.loadFrom [("package.json", Sample.pkgBar);
                            ("some.config.js", Sample.someConfig)])
          Sample.options Sample.keyFoo Sample.start))
  = Some "/app/package.json" ∧
  resolvedPath
    (this_config
       (worldOf (getConfigFrom Sample.noBuiltins
                   (Sample.loadFrom [("package.json", Sample.pkgBar);
                                     ("some.config.js", Sample.someConfig)])
                   Sample.options "/app/src/index.js" ["some.config.js"] Sample.keyFoo
                   Sample.start)))
  = Some "/app/some.config.js" ∧
  includedFiles
    (this_config
       (worldOf (getConfigFrom Sample.noBuiltins
                   (Sample.loadFrom [("package.json", Sample.pkgBar);
                                     ("some.config.js", Sample.someConfig)])
                   Sample.options "/app/src/index.js" ["some.config.js"] Sample.keyFoo
                   Sample.start)))
  = [] ∧
  resolvedPath
    (this_config
       (worldOf (getConfigFrom Sample.noBuiltins
                   (Sample.loadFrom [("package.json", Sample.pkgBar);
                                     ("some.config.js", Sample.someConfig)])
                   Sample.options "/app/src/index.js" ["some.config.js"] Sample.keyFoo
                   Sample.resolved)))
  = Some "/app/.babelrc" ∧
  includedFiles
    (this_config
       (worldOf (getConfigFrom Sample.noBuiltins
                   (Sample.loadFrom [("package.json", Sample.pkgBar);
                                     ("some.config.js", Sample.someConfig)])
                   Sample.options "/app/src/index.js" ["some.config.js"] Sample.keyFoo
                   Sample.resolved)))
  = ["/app/package.json"; "/app/some.config.js"].
Proof.
  split; [reflexivity|]. split; [reflexivity|]. split; [reflexivity|].
  pose proof (getConfigFrom_records_found_file Sample.noBuiltins
                (Sample.loadFrom [("package.json", Sample.pkgBar);
                                  ("some.config.js", Sample.someConfig)])
                Sample.options Sample.start
                "/app/src/index.js" ["some.config.js"] Sample.keyFoo
                (mkLoadedConfig Sample.someConfig [mkConfigFile "/app/some.config.js"])
                (mkConfigFile "/app/some.config.js") []
                eq_refl eq_refl eq_refl eq_refl)
    as (_ & Hpath & Hfiles & _).
  pose proof (getConfigFrom_records_found_file Sample.noBuiltins
                (Sample.loadFrom [("package.json", Sample.pkgBar);
                                  ("some.config.js", Sample.someConfig)])
                Sample.options Sample.resolved
                "/app/src/index.js" ["some.config.js"] Sample.keyFoo
                (mkLoadedConfig Sample.someConfig [mkConfigFile "/app/some.config.js"])
                (mkConfigFile "/app/some.config.js") []
                eq_refl eq_refl eq_refl eq_refl)
    as (_ & Hpath' & Hfiles' & _).
  split; [exact Hpath|]. split; [exact Hfiles|]. split; [exact Hpath'|exact Hfiles'].
Defined.

(** C2 as stated fails: a package descriptor found when another source has
    already been resolved is not added to the included files.  After
    [getConfigFrom("/lib/index.js", ["package.json"])] has made
    [/lib/package.json] the resolved path, [getConfig(["package.json"])]
    finds [/app/package.json]: the second file found, and a package
    descriptor.  It becomes the resolved path, the included files stay
    empty, and [/lib/package.json] is recorded nowhere. *)
Lemma second_package_descriptor_becomes_resolvedPath :
  resolvedPath
    (this_config
       (worldOf (getConfigFrom Sample.noBuiltins
                   (Sample.loadNear [("package.json", Sample.pkgFoo)]) Sample.options
                   "/lib/index.js" ["package.json"] None Sample.start)))
  = Some "/lib/package.json" ∧
  notExcluded None = true ∧
  outcomeOf
    (getConfig Sample.noBuiltins (Sample.loadNear [("package.json", Sample.pkgFoo)])
       Sample.options ["package.json"] None
       (worldOf (getConfigFrom Sample.noBuiltins
                   (Sample.loadNear [("package.json", Sample.pkgFoo)]) Sample.options
                   "/lib/index.js" ["package.json"] None Sample.start)))
  = Ret Sample.pkgFoo ∧
  resolvedPath
    (this_config
       (worldOf
          (getConfig Sample.noBuiltins (Sample.loadNear [("package.json", Sample.pkgFoo)])
             Sample.options ["package.json"] None
             (worldOf (getConfigFrom Sample.noBuiltins
                         (Sample.loadNear [("package.json", Sample.pkgFoo)])
                         Sample.options "/lib/index.js" ["package.json"] None
                         Sample.start)))))
  = Some "/app/package.json" ∧
  includedFiles
    (this_config
       (worldOf
          (getConfig Sample.noBuiltins (Sample.loadNear [("package.json", Sample.pkgFoo)])
             Sample.options ["package.json"] None
             (worldOf (getConfigFrom Sample.noBuiltins
                         (Sample.loadNear [("package.json", Sample.pkgFoo)])
                         Sample.options "/lib/index.js" ["package.json"] None
                         Sample.start)))))
  = [] ∧
  loads
    (worldOf
       (getConfig Sample.noBuiltins (Sample.loadNear [("package.json", Sample.pkgFoo)])
          Sample.options ["package.json"] None
          (worldOf (getConfigFrom Sample.noBuiltins
                      (Sample.loadNear [("package.json", Sample.pkgFoo)])
                      Sample.options "/lib/index.js" ["package.json"] None
                      Sample.start))))
  = [mkLoadCall "/lib/index.js" ["package.json"] None; Sample.packageSearch].
Proof. repeat split; reflexivity. Qed.

Lemma getConfigFrom_nothing_found_witness :
  searchesCandidates Sample.noBuiltins (Sample.loadFrom []) Sample.options
    None Sample.start = true ∧
  Sample.loadFrom [] (inputFS Sample.options) "/app/src/index.js" ["some.config.js"]
    (loadOptionsFor None) = Ret None ∧
  getConfigFrom Sample.noBuiltins (Sample.loadFrom []) Sample.options
    "/app/src/index.js" ["some.config.js"] None Sample.start
  = (Ret JNull, mkWorld Sample.emptyConfig [Sample.candidateSearch]).
Proof.
  split; [reflexivity|]. split; [reflexivity|].
  exact (proj1
    (getConfigFrom_nothing_found Sample.noBuiltins (Sample.loadFrom []) Sample.options
       Sample.start "/app/src/index.js" ["some.config.js"] None eq_refl eq_refl)).
Defined.

(** C7 as stated fails: with [{packageKey: "foo"}], a package descriptor
    [{"bar": 1}] that is not cached yet and no candidate to be found, the
    call returns [null] but the Config has changed: the package lookup has
    recorded the descriptor's path as [resolvedPath]. *)
Lemma nothing_found_yet_resolvedPath_set :
  searchesCandidates Sample.noBuiltins
    (Sample.loadFrom [("package.json", Sample.pkgBar)])
    Sample.options Sample.keyFoo Sample.start = true ∧
  Sample.loadFrom [("package.json", Sample.pkgBar)] (inputFS Sample.options)
    "/app/src/index.js" ["some.config.js"] (loadOptionsFor Sample.keyFoo) = Ret None ∧
  outcomeOf (getConfig Sample.noBuiltins
               (Sample.loadFrom [("package.json", Sample.pkgBar)])
               Sample.options ["some.config.js"] Sample.keyFoo Sample.start)
  = Ret JNull ∧
  resolvedPath (this_config Sample.start) = None ∧
  resolvedPath
    (this_config
       (worldOf (getConfig Sample.noBuiltins
                   (Sample.loadFrom [("package.json", Sample.pkgBar)])
                   Sample.options ["some.config.js"] Sample.keyFoo Sample.start)))
  = Some "/app/package.json" ∧
  this_config
    (worldOf (getConfig Sample.noBuiltins
                (Sample.loadFrom [("package.json", Sample.pkgBar)])
                Sample.options ["some.config.js"] Sample.keyFoo Sample.start))
  ≠ this_config Sample.start.
Proof. repeat split; try reflexivity. discriminate. Qed.

Lemma getPackage_memoized_witness :
  truthy Sample.pkgFoo = true ∧
  getPackage Sample.noBuiltins (Sample.loadFrom [("package.json", Sample.pkgFoo)])
    Sample.options
    (execOps Sample.noBuiltins (Sample.loadFrom [("package.json", Sample.pkgFoo)])
       Sample.options
       [OpSetResult JNull; OpGetConfig ["some.config.js"] Sample.keyFoo;
        OpGetPackage; OpAddIncludedFile "/app/extra.json"]
       (worldOf (getPackage Sample.noBuiltins
                   (Sample.loadFrom [("package.json", Sample.pkgFoo)])
                   Sample.options Sample.start)))
  = (Ret Sample.pkgFoo,
     execOps Sample.noBuiltins (Sample.loadFrom [("package.json", Sample.pkgFoo)])
       Sample.options
       [OpSetResult JNull; OpGetConfig ["some.config.js"] Sample.keyFoo;
        OpGetPackage; OpAddIncludedFile "/app/extra.json"]
       (worldOf (getPackage Sample.noBuiltins
                   (Sample.loadFrom [("package.json", Sample.pkgFoo)])
                   Sample.options Sample.start))).
Proof.
  split; [reflexivity|].
  apply (getPackage_memoized Sample.noBuiltins
           (Sample.loadFrom [("package.json", Sample.pkgFoo)]) Sample.options
           Sample.start); reflexivity.
Defined.

(** C3 as stated fails: when no package descriptor is found, [getPackage()]
    resolves to [null], caches nothing, and the next call searches again. *)
Lemma getPackage_searches_again_when_absent :
  getPackage Sample.noBuiltins (Sample.loadFrom []) Sample.options Sample.start
  = (Ret JNull, mkWorld (with_pkg JNull Sample.emptyConfig) [Sample.packageSearch]) ∧
  getPackage Sample.noBuiltins (Sample.loadFrom []) Sample.options
    (mkWorld (with_pkg JNull Sample.emptyConfig) [Sample.packageSearch])
  = (Ret JNull,
     mkWorld (with_pkg JNull Sample.emptyConfig)
       [Sample.packageSearch; Sample.packageSearch]).
Proof. split; reflexivity. Qed.

Lemma flags_are_one_way_witness :
  (shouldRehydrate_flag (this_config Sample.flagged) = true ∧
   shouldReload_flag (this_config Sample.flagged) = true ∧
   shouldInvalidateOnStartup_flag (this_config Sample.flagged) = true) ∧
  (shouldRehydrate_flag
     (this_config
        (execOps Sample.noBuiltins (Sample.loadFrom [("package.json", Sample.pkgFoo)])
           Sample.options
           [OpGetPackage; OpSetResult (JBool false);
            OpGetConfig ["some.config.js"] Sample.keyFoo; OpSetWatchGlob "*.json"]
           Sample.flagged)) = true ∧
   shouldReload_flag
     (this_config
        (execOps Sample.noBuiltins (Sample.loadFrom [("package.json", Sample.pkgFoo)])
           Sample.options
           [OpGetPackage; OpSetResult (JBool false);
            OpGetConfig ["some.config.js"] Sample.keyFoo; OpSetWatchGlob "*.json"]
           Sample.flagged)) = true ∧
   shouldInvalidateOnStartup_flag
     (this_config
        (execOps Sample.noBuiltins (Sample.loadFrom [("package.json", Sample.pkgFoo)])
           Sample.options
           [OpGetPackage; OpSetResult (JBool false);
            OpGetConfig ["some.config.js"] Sample.keyFoo; OpSetWatchGlob "*.json"]
           Sample.flagged)) = true).
Proof.
  split; [repeat split; reflexivity|].
  destruct (flags_are_one_way Sample.noBuiltins
              (Sample.loadFrom [("package.json", Sample.pkgFoo)]) Sample.options
              Sample.flagged
              [OpGetPackage; OpSetResult (JBool false);
               OpGetConfig ["some.config.js"] Sample.keyFoo; OpSetWatchGlob "*.json"])
    as (_ & H1 & H2 & H3).
  split; [apply H1; reflexivity|]. split; [apply H2; reflexivity|apply H3; reflexivity].
Defined.

(** ** What the table holds *)

Lemma new_PublicConfig_lookup_inv (config options config' options' r : Ref) (h : Heap) :
  lookupWrapper config' options' (new_PublicConfig config options h).2 = Some r →
  (config' = config ∧ options' = options ∧ r = nextRef h ∧
   lookupWrapper config options h = None) ∨
  lookupWrapper config' options' h = Some r.
Proof.
  unfold lookupWrapper, new_PublicConfig, DefaultWeakMap_get.
  destruct (internalConfigToConfig h !! options) as [inner|] eqn:Hinner; simpl.
  - destruct (inner !! config) as [existing|] eqn:Hhit; simpl; [by right|].
    rewrite Hinner; simpl.
    destruct (decide (options = options')) as [<-|Hne].
    + rewrite lookup_insert_eq; simpl.
      destruct (decide (config = config')) as [<-|Hne'].
      * rewrite lookup_insert_eq. intros [= <-]. by left.
      * rewrite lookup_insert_ne by done. rewrite Hinner. by right.
    + rewrite lookup_insert_ne by done. by right.
  - rewrite lookup_empty, lookup_insert_eq; simpl.
    destruct (decide (options = options')) as [<-|Hne].
    + rewrite !lookup_insert_eq; simpl.
      destruct (decide (config = config')) as [<-|Hne'].
      * rewrite lookup_insert_eq. intros [= <-]. by left.
      * rewrite lookup_insert_ne by done. by rewrite lookup_empty.
    + rewrite !lookup_insert_ne by done. by right.
Qed.

Lemma new_PublicConfig_heap (config options : Ref) (h : Heap) :
  nextRef (new_PublicConfig config options h).2 = S (nextRef h) ∧
  (∀ r, r < nextRef h →
        wrappers (new_PublicConfig config options h).2 !! r = wrappers h !! r) ∧
  (lookupWrapper config options h = None →
   (new_PublicConfig config options h).1 = nextRef h ∧
   wrappers (new_PublicConfig config options h).2 !! nextRef h
   = Some (mkPublicConfigObject (Some config) (Some options))).
Proof.
  unfold lookupWrapper, new_PublicConfig, DefaultWeakMap_get.
  destruct (internalConfigToConfig h !! options) as [inner|] eqn:Hinner; simpl.
  - destruct (inner !! config) as [existing|] eqn:Hhit; simpl.
    + split; [done|]. split; [|done]. intros r Hr. rewrite lookup_insert_ne; [done|lia].
    + rewrite Hinner; simpl. split; [done|]. split.
      * intros r Hr. rewrite !lookup_insert_ne; [done|lia|lia].
      * intros _. by rewrite lookup_insert_eq.
  - rewrite lookup_empty, lookup_insert_eq; simpl. split; [done|]. split.
    + intros r Hr. rewrite !lookup_insert_ne; [done|lia|lia].
    + intros _. by rewrite lookup_insert_eq.
Qed.

Lemma new_PublicConfig_consistent (config options : Ref) (h : Heap) :
  tableConsistent h → tableConsistent (new_PublicConfig config options h).2.
Proof.
  intros Hcons c o r Hlook.
  destruct (new_PublicConfig_heap config options h) as (Hnext & Hold & Hnew).
  apply new_PublicConfig_lookup_inv in Hlook as [(-> & -> & -> & Hmiss)|Hbefore].
  - rewrite Hnext. split; [lia|]. by apply Hnew.
  - destruct (Hcons c o r Hbefore) as [Hlt Hobj].
    rewrite Hnext, Hold by done. split; [lia|done].
Qed.

Lemma constructAll_consistent (pairs : list (Ref * Ref)) (h : Heap) :
  tableConsistent h → tableConsistent (constructAll pairs h).
Proof.
  revert h. induction pairs as [|[c o] rest IH]; intros h Hcons; simpl; [done|].
  by apply IH, new_PublicConfig_consistent.
Qed.

Lemma initialHeap_consistent : tableConsistent initialHeap.
Proof. intros c o r. unfold lookupWrapper, initialHeap; simpl. by rewrite lookup_empty. Qed.

(** C6: the wrapper is memoized by identity, one wrapper per Config and
    options.  Constructing a PublicConfig for a pair a second time, after
    any number of other constructions, yields the very object the first
    construction yielded and leaves the table as it was; that object is
    the one the table holds for the pair.  From the state in which the
    module is loaded on, it is an allocated wrapper whose private fields
    are that Config and those options, and a construction for any other
    pair never yields it. *)
Theorem new_PublicConfig_memoized (h : Heap) (config options config' options' : Ref)
    (before between : list (Ref * Ref)) :
  (let first := new_PublicConfig config options h in
   let later := constructAll between first.2 in
   (new_PublicConfig config options later).1 = first.1 ∧
   internalConfigToConfig (new_PublicConfig config options later).2
   = internalConfigToConfig later ∧
   lookupWrapper config options later = Some first.1) ∧
  (let first := new_PublicConfig config options (constructAll before initialHeap) in
   let later := constructAll between first.2 in
   (new_PublicConfig config options later).1 = first.1 ∧
   first.1 < nextRef first.2 ∧
   wrappers (new_PublicConfig config options later).2 !! first.1
   = Some (mkPublicConfigObject (Some config) (Some options)) ∧
   ((new_PublicConfig config' options' later).1 = first.1 →
    config' = config ∧ options' = options)).
Proof.
  assert (∀ h0, let first := new_PublicConfig config options h0 in
                let later := constructAll between first.2 in
                (new_PublicConfig config options later).1 = first.1 ∧
                internalConfigToConfig (new_PublicConfig config options later).2
                = internalConfigToConfig later ∧
                lookupWrapper config options later = Some first.1) as Hsame.
  { intros h0. simpl.
    pose proof (new_PublicConfig_registers config options h0) as Hreg.
    apply (constructAll_preserves _ _ _ between) in Hreg.
    by rewrite (new_PublicConfig_hit _ _ _ _ Hreg). }
  split; [apply Hsame|].
  intros first later.
  destruct (Hsame (constructAll before initialHeap)) as (Hagain & _ & Hlater).
  fold first in Hagain, Hlater. fold later in Hagain, Hlater.
  pose proof (constructAll_consistent before _ initialHeap_consistent) as Hcons.
  apply (new_PublicConfig_consistent config options) in Hcons. fold first in Hcons.
  pose proof (Hcons _ _ _ (new_PublicConfig_registers config options
                             (constructAll before initialHeap))) as [Hlt _].
  fold first in Hlt.
  apply (constructAll_consistent between) in Hcons. fold later in Hcons.
  split; [exact Hagain|]. split; [exact Hlt|]. split.
  - apply (new_PublicConfig_consistent config options) in Hcons.
    apply Hcons. rewrite <- Hagain. apply new_PublicConfig_registers.
  - intros Hother.
    apply (new_PublicConfig_consistent config' options') in Hcons.
    pose proof (new_PublicConfig_preserves _ _ config' options' _ _ Hlater) as Hmine.
    pose proof (new_PublicConfig_registers config' options' later) as Htheirs.
    rewrite Hother in Htheirs.
    destruct (Hcons _ _ _ Hmine) as [_ Hobj1].
    destruct (Hcons _ _ _ Htheirs) as [_ Hobj2].
    rewrite Hobj1 in Hobj2. by injection Hobj2.
Qed.

(** X13: whatever was constructed before, the wrapper that
    [new PublicConfig(config, options)] evaluates to is an object whose
    private fields are that Config and those options, also when it is a
    wrapper made earlier that is handed out again. *)
Theorem new_PublicConfig_wraps_its_arguments (before : list (Ref * Ref))
    (config options : Ref) :
  wrappers (new_PublicConfig config options (constructAll before initialHeap)).2
    !! (new_PublicConfig config options (constructAll before initialHeap)).1
  = Some (mkPublicConfigObject (Some config) (Some options)).
Proof.
  pose proof (constructAll_consistent before _ initialHeap_consistent) as Hcons.
  apply (new_PublicConfig_consistent config options) in Hcons.
  by apply Hcons, new_PublicConfig_registers.
Qed.

(** X14: one wrapper never serves two pairs: if two constructions, however
    far apart, evaluate to the same object, they were given the same Config
    and the same options. *)
Theorem new_PublicConfig_injective (before between : list (Ref * Ref))
    (config1 options1 config2 options2 : Ref) :
  let first := new_PublicConfig config1 options1 (constructAll before initialHeap) in
  let second := new_PublicConfig config2 options2 (constructAll between first.2) in
  second.1 = first.1 →
  config1 = config2 ∧ options1 = options2.
Proof.
  intros first second Hsame.
  pose proof (constructAll_consistent before _ initialHeap_consistent) as Hcons.
  apply (new_PublicConfig_consistent config1 options1) in Hcons. fold first in Hcons.
  pose proof (new_PublicConfig_registers config1 options1
                (constructAll before initialHeap)) as Hreg1.
  fold first in Hreg1.
  apply (constructAll_preserves _ _ _ between) in Hreg1.
  apply (new_PublicConfig_preserves _ _ config2 options2) in Hreg1. fold second in Hreg1.
  pose proof (new_PublicConfig_registers config2 options2
                (constructAll between first.2)) as Hreg2.
  fold second in Hreg2. rewrite Hsame in Hreg2.
  apply (constructAll_consistent between) in Hcons.
  apply (new_PublicConfig_consistent config2 options2) in Hcons. fold second in Hcons.
  destruct (Hcons _ _ _ Hreg1) as [_ Hobj1].
  destruct (Hcons _ _ _ Hreg2) as [_ Hobj2].
  rewrite Hobj1 in Hobj2. by injection Hobj2.
Qed.

(** ** Which style sheets are parsed *)

Example URL_RE_samples :
  map CSSTransformer.URL_RE_test
    ["a { background: url(img.png) }";
     "a { background: url  (img.png) }";
     "a { background: url(http://example.org/img.png) }";
     "a { background: url(data:image/png;base64,AAAA) }";
     "a { background: URL(img.png) }";
     "a { color: red }";
     "a { background: url(Http://example.org/img.png) }"]
  = [true; true; false; false; false; false; true].
Proof. reflexivity. Qed.

Lemma eat_includes (needle s : string) :
  is_Some (CSSTransformer.eat needle s) → CSSTransformer.includes needle s = true.
Proof. intros [r Hr]. destruct s; simpl; by rewrite Hr. Qed.

Lemma URL_RE_here_url (s : string) : CSSTransformer.URL_RE_here s = true → is_Some (CSSTransformer.eat "url" s).
Proof. unfold CSSTransformer.URL_RE_here. destruct (CSSTransformer.eat "url" s); [eauto|done]. Qed.

Lemma includes_tail (needle : string) (a : Ascii.ascii) (s : string) :
  CSSTransformer.includes needle s = true → CSSTransformer.includes needle (String a s) = true.
Proof. intros H. simpl. rewrite H. by destruct (CSSTransformer.eat needle (String a s)). Qed.

Lemma URL_RE_test_includes_url (s : string) :
  CSSTransformer.URL_RE_test s = true → CSSTransformer.includes "url" s = true.
Proof.
  induction s as [|a s IH].
  - done.
  - intros H. cbn [CSSTransformer.URL_RE_test] in H. apply orb_true_iff in H as [H|H].
    + by apply eat_includes, URL_RE_here_url.
    + by apply includes_tail, IH.
Qed.

Lemma URL_RE_test_append (before s : string) :
  CSSTransformer.URL_RE_test s = true → CSSTransformer.URL_RE_test (before +:+ s) = true.
Proof.
  intros H. induction before as [|a before IH]; [done|].
  change (String a before +:+ s) with (String a (before +:+ s)).
  cbn [CSSTransformer.URL_RE_test]. rewrite IH. apply orb_true_r.
Qed.

Lemma URL_RE_here_quoted (rest : string) :
  CSSTransformer.URL_RE_here ("url(" +:+ CSSTransformer.dquote +:+ rest) = true.
Proof.
  unfold CSSTransformer.URL_RE_here. simpl.
  destruct rest as [|c rest]; simpl; by rewrite ?orb_true_r.
Qed.

Lemma URL_RE_test_here (s : string) :
  CSSTransformer.URL_RE_here s = true → CSSTransformer.URL_RE_test s = true.
Proof. intros H. destruct s; cbn [CSSTransformer.URL_RE_test]; by rewrite H. Qed.

Lemma IMPORT_RE_test_append (before s : string) :
  CSSTransformer.IMPORT_RE_test s = true → CSSTransformer.IMPORT_RE_test (before +:+ s) = true.
Proof.
  unfold CSSTransformer.IMPORT_RE_test. intros H. induction before as [|a before IH]; [done|].
  change (String a before +:+ s) with (String a (before +:+ s)).
  by apply includes_tail.
Qed.

(** X21: a [.css] asset whose code contains neither [@import] nor [url] is
    not parsed: [CSSTransformer.parse] returns [null] and the code is not handed to
    postcss. *)
Theorem parse_skips_plain_css {Program : Type}
    (postcss_parse : option string → FilePath → Outcome Program)
    (asset : CSSTransformer.CSSAsset) (code : string) :
  CSSTransformer.getCode asset = Ret (Some code) →
  endsWith (CSSTransformer.asset_filePath asset) ".css" = true →
  CSSTransformer.includes "@import" code = false →
  CSSTransformer.includes "url" code = false →
  CSSTransformer.parse postcss_parse asset = Ret None.
Proof.
  intros Hcode Hcss Himport Hurl. unfold CSSTransformer.parse.
  destruct (CSSTransformer.isFalse (CSSTransformer.meta_hasDependencies asset)); [done|].
  rewrite Hcode. unfold CSSTransformer.canHaveDependencies, CSSTransformer.IMPORT_RE_test.
  rewrite Hcss, Himport.
  destruct (CSSTransformer.URL_RE_test code) eqn:Htest; [|done].
  apply URL_RE_test_includes_url in Htest. congruence.
Qed.

(** X22: unless [meta.hasDependencies] is [false], an asset is handed to
    postcss whenever its path does not end in [.css], or its code contains
    [@import], or its code contains [url(] followed by a double quote,
    whatever follows the quote (an absolute URL included); the AST is
    then of type [postcss], version [7.0.0], and a failure of postcss is
    the failure of [CSSTransformer.parse]. *)
Theorem parse_hands_over_to_postcss {Program : Type}
    (postcss_parse : option string → FilePath → Outcome Program)
    (asset : CSSTransformer.CSSAsset) (code : string) :
  CSSTransformer.isFalse (CSSTransformer.meta_hasDependencies asset) = false →
  CSSTransformer.getCode asset = Ret (Some code) →
  endsWith (CSSTransformer.asset_filePath asset) ".css" = false ∨
  (∃ before rest, code = before +:+ "@import" +:+ rest) ∨
  (∃ before rest, code = before +:+ "url(" +:+ CSSTransformer.dquote +:+ rest) →
  CSSTransformer.parse postcss_parse asset
  = match postcss_parse (Some code) (CSSTransformer.asset_filePath asset) with
    | Throw e => Throw e
    | Ret program => Ret (Some (CSSTransformer.mkPostcssAST "postcss" "7.0.0" program))
    end.
Proof.
  intros Hmeta Hcode Hwhy. unfold CSSTransformer.parse. rewrite Hmeta, Hcode.
  assert (CSSTransformer.canHaveDependencies (CSSTransformer.asset_filePath asset) code = true) as ->; [|done].
  unfold CSSTransformer.canHaveDependencies.
  destruct Hwhy as [Hext|[(before & rest & ->)|(before & rest & ->)]].
  - by rewrite Hext.
  - assert (CSSTransformer.IMPORT_RE_test (before +:+ "@import" +:+ rest) = true) as ->.
    { apply IMPORT_RE_test_append. unfold CSSTransformer.IMPORT_RE_test.
      apply eat_includes. simpl. eauto. }
    by rewrite orb_true_r.
  - assert (CSSTransformer.URL_RE_test (before +:+ "url(" +:+ CSSTransformer.dquote +:+ rest) = true) as ->.
    { apply URL_RE_test_append, URL_RE_test_here, URL_RE_here_quoted. }
    by rewrite orb_true_r.
Qed.

(** ** Further statements at work on the samples *)

Lemma resolvedPath_is_never_unset_witness :
  is_Some
    (resolvedPath
       (this_config
          (execOps Sample.noBuiltins (Sample.loadFrom [("package.json", Sample.pkgFoo)])
             Sample.options
             [OpGetPackage; OpGetConfig ["some.config.js"] Sample.keyFoo]
             Sample.resolved))).
Proof.
  apply (resolvedPath_is_never_unset Sample.noBuiltins
           (Sample.loadFrom [("package.json", Sample.pkgFoo)]) Sample.options
           Sample.resolved).
  eexists. reflexivity.
Defined.

Lemma collections_stay_duplicate_free_witness :
  NoDup
    (includedFiles
       (this_config
          (execOps Sample.noBuiltins (Sample.loadFrom []) Sample.options
             [OpAddIncludedFile "/app/a.json"; OpAddIncludedFile "/app/a.json";
              OpAddDevDependency "left-pad" None;
              OpAddDevDependency "left-pad" (Some "^1.0.0")]
             Sample.start))) ∧
  NoDup
    (devDeps
       (this_config
          (execOps Sample.noBuiltins (Sample.loadFrom []) Sample.options
             [OpAddIncludedFile "/app/a.json"; OpAddIncludedFile "/app/a.json";
              OpAddDevDependency "left-pad" None;
              OpAddDevDependency "left-pad" (Some "^1.0.0")]
             Sample.start))).*1.
Proof.
  apply (collections_stay_duplicate_free Sample.noBuiltins (Sample.loadFrom [])
           Sample.options Sample.start); apply NoDup_nil_2.
Defined.

Lemma resolvedPath_is_kept_by_searches_witness :
  resolvedPath
    (this_config
       (execOps Sample.noBuiltins
          (Sample.loadFrom [("package.json", Sample.pkgFoo);
                            ("some.config.js", Sample.someConfig)])
          Sample.options
          [OpGetPackage; OpGetConfig ["some.config.js"] None; OpSetResult JNull]
          Sample.resolved))
  = Some "/app/.babelrc".
Proof.
  apply (resolvedPath_is_kept_by_searches Sample.noBuiltins
           (Sample.loadFrom [("package.json", Sample.pkgFoo);
                             ("some.config.js", Sample.someConfig)])
           Sample.options Sample.resolved); reflexivity.
Defined.

Lemma excluded_file_is_not_recorded_witness :
  notExcluded Sample.excluded = false ∧
  getConfigFrom Sample.noBuiltins (Sample.loadFrom [("some.config.js", Sample.someConfig)])
    Sample.options "/app/src/index.js" ["some.config.js"] Sample.excluded Sample.start
  = (Ret Sample.someConfig, mkWorld Sample.emptyConfig [Sample.candidateSearch]).
Proof.
  split; [reflexivity|].
  apply (excluded_file_is_not_recorded Sample.noBuiltins
           (Sample.loadFrom [("some.config.js", Sample.someConfig)]) Sample.options
           Sample.start "/app/src/index.js" ["some.config.js"] Sample.excluded
           (mkLoadedConfig Sample.someConfig [mkConfigFile "/app/some.config.js"]));
    reflexivity.
Defined.


Lemma failed_package_lookup_is_propagated_witness :
  getPackage Sample.noBuiltins (Sample.failOn "package.json" []) Sample.options
    Sample.start
  = (Throw (LoadConfigError "Cannot parse package.json"),
     mkWorld Sample.emptyConfig [Sample.packageSearch]) ∧
  getConfigFrom Sample.noBuiltins (Sample.failOn "package.json" []) Sample.options
    "/app/src/index.js" ["some.config.js"] Sample.keyFoo Sample.start
  = (Throw (LoadConfigError "Cannot parse package.json"),
     mkWorld Sample.emptyConfig [Sample.packageSearch]).
Proof.
  apply (failed_package_lookup_is_propagated Sample.noBuiltins
           (Sample.failOn "package.json" []) Sample.options Sample.start
           "/app/src/index.js" ["some.config.js"] Sample.keyFoo "foo"); reflexivity.
Defined.

Lemma getPackage_without_descriptor_witness :
  getPackage Sample.noBuiltins (Sample.loadFrom []) Sample.options Sample.start
  = (Ret JNull, mkWorld (with_pkg JNull Sample.emptyConfig) [Sample.packageSearch]).
Proof.
  apply (getPackage_without_descriptor Sample.noBuiltins (Sample.loadFrom [])
           Sample.options Sample.start); reflexivity.
Defined.

Lemma getPackage_with_descriptor_witness :
  pkg (this_config
         (worldOf (getPackage Sample.noBuiltins
                     (Sample.loadFrom [("package.json", Sample.pkgFoo)])
                     Sample.options Sample.resolved)))
  = Sample.pkgFoo ∧
  includedFiles
    (this_config
       (worldOf (getPackage Sample.noBuiltins
                   (Sample.loadFrom [("package.json", Sample.pkgFoo)])
                   Sample.options Sample.resolved)))
  = ["/app/package.json"].
Proof.
  pose proof (getPackage_with_descriptor Sample.noBuiltins
                (Sample.loadFrom [("package.json", Sample.pkgFoo)]) Sample.options
                Sample.resolved
                (mkLoadedConfig Sample.pkgFoo [mkConfigFile "/app/package.json"])
                (mkConfigFile "/app/package.json") [] eq_refl eq_refl eq_refl)
    as (_ & Hpkg & _ & Hfiles & _).
  split; [exact Hpkg|exact Hfiles].
Defined.

Lemma getConfig_repeated_witness :
  this_config
    (worldOf (getConfig Sample.noBuiltins
                (Sample.loadFrom [("some.config.js", Sample.someConfig)])
                Sample.options ["some.config.js"] None
                (worldOf (getConfig Sample.noBuiltins
                            (Sample.loadFrom [("some.config.js", Sample.someConfig)])
                            Sample.options ["some.config.js"] None Sample.start))))
  = with_includedFiles ["/app/some.config.js"]
      (with_resolvedPath (Some "/app/some.config.js") Sample.emptyConfig).
Proof.
  pose proof (getConfig_repeated Sample.noBuiltins
                (Sample.loadFrom [("some.config.js", Sample.someConfig)])
                Sample.options Sample.start ["some.config.js"] None
                (mkLoadedConfig Sample.someConfig [mkConfigFile "/app/some.config.js"])
                (mkConfigFile "/app/some.config.js") []
                eq_refl eq_refl eq_refl eq_refl eq_refl eq_refl)
    as (_ & Htwice & _).
  exact Htwice.
Defined.

Lemma lookup_order_matters_witness :
  includedFiles
    (this_config
       (worldOf (getConfig Sample.noBuiltins
                   (Sample.loadFrom [("package.json", Sample.pkgFoo);
                                     ("some.config.js", Sample.someConfig)])
                   Sample.options ["some.config.js"] None
                   (worldOf (getPackage Sample.noBuiltins
                               (Sample.loadFrom [("package.json", Sample.pkgFoo);
                                                 ("some.config.js", Sample.someConfig)])
                               Sample.options Sample.start)))))
  = [] ∧
  includedFiles
    (this_config
       (worldOf (getPackage Sample.noBuiltins
                   (Sample.loadFrom [("package.json", Sample.pkgFoo);
                                     ("some.config.js", Sample.someConfig)])
                   Sample.options
                   (worldOf (getConfig Sample.noBuiltins
                               (Sample.loadFrom [("package.json", Sample.pkgFoo);
                                                 ("some.config.js", Sample.someConfig)])
                               Sample.options ["some.config.js"] None Sample.start)))))
  = ["/app/package.json"].
Proof.
  pose proof (lookup_order_matters Sample.noBuiltins
                (Sample.loadFrom [("package.json", Sample.pkgFoo);
                                  ("some.config.js", Sample.someConfig)])
                Sample.options Sample.start ["some.config.js"]
                (mkLoadedConfig Sample.pkgFoo [mkConfigFile "/app/package.json"])
                (mkLoadedConfig Sample.someConfig [mkConfigFile "/app/some.config.js"])
                (mkConfigFile "/app/package.json") (mkConfigFile "/app/some.config.js")
                [] []
                eq_refl eq_refl eq_refl eq_refl eq_refl eq_refl eq_refl eq_refl)
    as (_ & Hfirst & _ & Hlast).
  split; [exact Hfirst|exact Hlast].
Defined.

Lemma new_PublicConfig_injective_witness :
  (new_PublicConfig 3 1
     (constructAll [(2, 1)]
        (new_PublicConfig 3 1 (constructAll [(1, 1)] initialHeap)).2)).1
  = (new_PublicConfig 3 1 (constructAll [(1, 1)] initialHeap)).1 ∧
  (3 = 3 ∧ 1 = 1).
Proof.
  split; [reflexivity|].
  apply (new_PublicConfig_injective [(1, 1)] [(2, 1)] 3 1 3 1). reflexivity.
Defined.

Lemma getJSXOptions_not_source_witness :
  getJSXOptions Sample.noBuiltins (Sample.loadFrom [("package.json", Sample.pkgPreact)])
    Sample.options Sample.extname (mkPluginOptions "development") Sample.dependency
  = (Ret JNull, Sample.dependency).
Proof.
  apply (getJSXOptions_not_source Sample.noBuiltins
           (Sample.loadFrom [("package.json", Sample.pkgPreact)]) Sample.options
           Sample.extname). reflexivity.
Defined.

Lemma getJSXOptions_alias_react_witness :
  outcomeOf
    (getJSXOptions Sample.noBuiltins (Sample.loadFrom [("package.json", Sample.pkgAlias)])
       Sample.options Sample.extname (mkPluginOptions "production") Sample.start)
  = Ret (jsxPresets (JString "React.createElement") (JString "React.Fragment") false).
Proof.
  rewrite (getJSXOptions_alias_react Sample.noBuiltins
             (Sample.loadFrom [("package.json", Sample.pkgAlias)]) Sample.options
             Sample.extname Sample.start
             (worldOf (getPackage Sample.noBuiltins
                         (Sample.loadFrom [("package.json", Sample.pkgAlias)])
                         Sample.options Sample.start))
             (mkPluginOptions "production") Sample.pkgAlias
             [("react", JString "preact/compat")] (JString "preact/compat")
             eq_refl eq_refl eq_refl eq_refl eq_refl).
  reflexivity.
Defined.

Lemma getJSXOptions_first_listed_library_witness :
  outcomeOf
    (getJSXOptions Sample.noBuiltins
       (Sample.loadFrom [("package.json", Sample.pkgPreact)])
       Sample.options Sample.extname (mkPluginOptions "development") Sample.start)
  = Ret (jsxPresets (JString "h") (JString "Fragment") true).
Proof.
  assert (Forall (λ earlier,
            truthy (dependsOn Sample.noBuiltins Sample.pkgPreact earlier) = false)
            ["react"]) as Hbefore by (repeat constructor).
  destruct (getJSXOptions_first_listed_library Sample.noBuiltins
              (Sample.loadFrom [("package.json", Sample.pkgPreact)]) Sample.options
              Sample.extname Sample.start
              (worldOf (getPackage Sample.noBuiltins
                          (Sample.loadFrom [("package.json", Sample.pkgPreact)])
                          Sample.options Sample.start))
              (mkPluginOptions "development") Sample.pkgPreact
              ["react"] ["nervjs"; "hyperapp"] "preact"
              eq_refl eq_refl eq_refl eq_refl Hbefore eq_refl)
    as (entry & pragma & pragmaFrag & Hentry & Hpragma & Hfrag & Hresult).
  injection Hentry as <-. injection Hpragma as <-. injection Hfrag as <-.
  rewrite Hresult. reflexivity.
Defined.

Lemma getJSXOptions_no_library_witness :
  outcomeOf
    (getJSXOptions Sample.noBuiltins (Sample.loadFrom [("package.json", Sample.pkgBar)])
       Sample.options Sample.extname (mkPluginOptions "development") Sample.jsxStart)
  = Ret (jsxPresets JUndefined JUndefined true) ∧
  outcomeOf
    (getJSXOptions Sample.noBuiltins (Sample.loadFrom []) Sample.options Sample.extname
       (mkPluginOptions "development") Sample.start)
  = Ret JUndefined.
Proof.
  assert (Forall (λ name,
            truthy (dependsOn Sample.noBuiltins Sample.pkgBar name) = false)
            ["react"; "preact"; "nervjs"; "hyperapp"]) as Hnone by (repeat constructor).
  split.
  - rewrite (proj2
      (getJSXOptions_no_library Sample.noBuiltins
         (Sample.loadFrom [("package.json", Sample.pkgBar)]) Sample.options
         Sample.extname Sample.jsxStart
         (worldOf (getPackage Sample.noBuiltins
                     (Sample.loadFrom [("package.json", Sample.pkgBar)])
                     Sample.options Sample.jsxStart))
         (mkPluginOptions "development") Sample.pkgBar eq_refl eq_refl
         (or_intror (conj eq_refl Hnone)))
      (or_introl eq_refl)).
    reflexivity.
  - rewrite (proj1
      (getJSXOptions_no_library Sample.noBuiltins (Sample.loadFrom []) Sample.options
         Sample.extname Sample.start
         (worldOf (getPackage Sample.noBuiltins (Sample.loadFrom []) Sample.options
                     Sample.start))
         (mkPluginOptions "development") JNull eq_refl eq_refl (or_introl eq_refl))).
    reflexivity.
Defined.

Lemma getJSXOptions_effects_witness :
  worldOf
    (getJSXOptions Sample.noBuiltins (Sample.loadFrom [("package.json", Sample.pkgPreact)])
       Sample.options Sample.extname (mkPluginOptions "development") Sample.start)
  = mkWorld (with_pkg Sample.pkgPreact
               (with_resolvedPath (Some "/app/package.json") Sample.emptyConfig))
      [Sample.packageSearch].
Proof.
  rewrite (proj1
    (getJSXOptions_effects Sample.noBuiltins
       (Sample.loadFrom [("package.json", Sample.pkgPreact)]) Sample.options
       Sample.extname Sample.start (mkPluginOptions "development") eq_refl)).
  reflexivity.
Defined.

Lemma getJSXOptions_again_witness :
  getJSXOptions Sample.noBuiltins (Sample.loadFrom [("package.json", Sample.pkgPreact)])
    Sample.options Sample.extname (mkPluginOptions "development")
    (worldOf (getPackage Sample.noBuiltins
                (Sample.loadFrom [("package.json", Sample.pkgPreact)])
                Sample.options Sample.start))
  = (Ret (jsxPresets (JString "h") (JString "Fragment") true),
     worldOf (getPackage Sample.noBuiltins
                (Sample.loadFrom [("package.json", Sample.pkgPreact)])
                Sample.options Sample.start)).
Proof.
  rewrite (getJSXOptions_again Sample.noBuiltins
             (Sample.loadFrom [("package.json", Sample.pkgPreact)]) Sample.options
             Sample.extname Sample.start
             (worldOf (getPackage Sample.noBuiltins
                         (Sample.loadFrom [("package.json", Sample.pkgPreact)])
                         Sample.options Sample.start))
             (mkPluginOptions "development") Sample.pkgPreact eq_refl eq_refl eq_refl).
  reflexivity.
Defined.

Lemma parse_skips_plain_css_witness :
  CSSTransformer.parse Sample.postcssKeep Sample.plainSheet = Ret None.
Proof.
  apply (parse_skips_plain_css Sample.postcssKeep Sample.plainSheet "a { color: red }");
    reflexivity.
Defined.

Lemma parse_hands_over_to_postcss_witness :
  CSSTransformer.parse Sample.postcssKeep Sample.quotedSheet
  = Ret (Some (CSSTransformer.mkPostcssAST "postcss" "7.0.0"
                 ("a { background: url(" +:+ CSSTransformer.dquote +:+
                  "http://example.org/i.png" +:+ CSSTransformer.dquote +:+ ") }"))).
Proof.
  rewrite (parse_hands_over_to_postcss Sample.postcssKeep Sample.quotedSheet
             ("a { background: url(" +:+ CSSTransformer.dquote +:+
              "http://example.org/i.png" +:+ CSSTransformer.dquote +:+ ") }")
             eq_refl eq_refl
             (or_intror (or_intror
                (ex_intro _ "a { background: "
                   (ex_intro _ ("http://example.org/i.png" +:+ CSSTransformer.dquote +:+ ") }")
                      eq_refl))))).
  reflexivity.
Defined.

Lemma new_PublicConfig_memoized_witness :
  (new_PublicConfig 3 1
     (constructAll [(2, 1); (3, 2)]
        (new_PublicConfig 3 1 (constructAll [(1, 1)] initialHeap)).2)).1
  = (new_PublicConfig 3 1 (constructAll [(1, 1)] initialHeap)).1 ∧
  (new_PublicConfig 3 1 (constructAll [(1, 1)] initialHeap)).1 = 1 ∧
  wrappers
    (new_PublicConfig 3 1
       (constructAll [(2, 1); (3, 2)]
          (new_PublicConfig 3 1 (constructAll [(1, 1)] initialHeap)).2)).2 !! 1
  = Some (mkPublicConfigObject (Some 3) (Some 1)) ∧
  (new_PublicConfig 3 2
     (constructAll [(2, 1); (3, 2)]
        (new_PublicConfig 3 1 (constructAll [(1, 1)] initialHeap)).2)).1 = 3 ∧
  (3 = 3 ∧ 1 = 1).
Proof.
  destruct (new_PublicConfig_memoized initialHeap 3 1 3 1 [(1, 1)] [(2, 1); (3, 2)])
    as (_ & Hsame & _ & Hobject & Honly).
  split; [exact Hsame|]. split; [reflexivity|]. split; [exact Hobject|].
  split; [reflexivity|]. apply Honly. reflexivity.
Defined.
